(** * dota2-interactive-agent: provider gateway, preference extraction and
    profile evolution

    A shallow embedding of [server/src/services/llm.ts],
    [server/src/services/profile.ts], [server/src/services/memory.ts] and of
    the storage helper [updateProfile] of [server/src/routes/profile.ts],
    followed by the properties of the specification that concern them.

    Conventions of the embedding.
    - A JavaScript string is a [string]: a sequence of 8-bit characters.
    - [toLowerCase], [trim] and the white space class [\s] of regular
      expressions follow the Unicode tables of the run time.  They are the
      operations of a [JS.Runtime], over which the services are
      parametric; [JS.asciiRuntime], which knows the ASCII letters and the
      ASCII white space only, is the instance on which examples are
      evaluated.
    - An optional or nullable field ([f?: T], [T | null], [T | undefined]) is
      an [option].  The tests [if (x)] and [!!x] on an optional string are
      JavaScript truthiness: the field holds a non-empty string.
    - [throw] and [try]/[catch] are a sum type: [inl e] is a thrown [e].
    - [fetch] and [JSON.parse] belong to the run time, not to the repository;
      they are parameters of the functions that call them. *)

From Stdlib Require Import String Ascii List Bool ZArith QArith Lia.
From stdpp Require Import base decidable option list strings gmap pretty.

Local Open Scope string_scope.
Local Open Scope list_scope.
Local Set Warnings "-register-all".

(** ** JavaScript primitives used by the services *)

Module JS.

(** Truthiness of a string: every string but the empty one. *)
Definition truthy (s : string) : bool := negb (String.eqb s "").

(** Truthiness of [string | null | undefined]. *)
Definition truthy_opt (o : option string) : bool :=
  match o with
  | Some s => truthy s
  | None => false
  end.

(** [a ?? b] *)
Definition nullish {A : Type} (a : option A) (b : A) : A :=
  match a with
  | Some x => x
  | None => b
  end.

Definition lower_char (c : ascii) : ascii :=
  let n := nat_of_ascii c in
  if (65 <=? n)%nat && (n <=? 90)%nat then ascii_of_nat (n + 32) else c.

(** The string operations of the run time that depend on its Unicode
    tables: [s.toLowerCase()], [s.trim()], and [s.trimStart()], which is
    also what the greedy [\s*] of a regular expression skips. *)
Class Runtime := {
  toLowerCase : string -> string;
  trim : string -> string;
  trimStart : string -> string
}.

(** [toLowerCase] on ASCII text: the letters [A]-[Z] are lowered. *)
Fixpoint asciiLower (s : string) : string :=
  match s with
  | EmptyString => EmptyString
  | String c s' => String (lower_char c) (asciiLower s')
  end.

(** [s.includes(sub)]: [sub] occurs in [s] as a contiguous substring. *)
Fixpoint includes (s sub : string) : bool :=
  String.prefix sub s ||
  match s with
  | EmptyString => false
  | String _ s' => includes s' sub
  end.

(** [trimStart], [trimEnd] and [trim] for the ASCII white space: blank,
    tab, line feed, vertical tab, form feed and carriage return. *)
Fixpoint asciiTrimStart (s : string) : string :=
  match s with
  | EmptyString => EmptyString
  | String c s' => if Ascii.is_space c then asciiTrimStart s' else s
  end.

Fixpoint asciiTrimEnd (s : string) : string :=
  match s with
  | EmptyString => EmptyString
  | String c s' =>
      let t := asciiTrimEnd s' in
      if Ascii.is_space c && String.eqb t "" then EmptyString else String c t
  end.

Definition asciiTrim (s : string) : string := asciiTrimEnd (asciiTrimStart s).

(** The run time restricted to ASCII text. *)
#[global] Instance asciiRuntime : Runtime :=
  {| toLowerCase := asciiLower; trim := asciiTrim;
     trimStart := asciiTrimStart |}.

Global Arguments toLowerCase : simpl never.
Global Arguments trim : simpl never.
Global Arguments trimStart : simpl never.

(** Drop the first [n] characters: [s.slice(n)]. *)
Fixpoint drop_chars (n : nat) (s : string) : string :=
  match n, s with
  | O, _ => s
  | S n', String _ s' => drop_chars n' s'
  | S _, EmptyString => EmptyString
  end.

(** [split_at sep s] cuts [s] at the first occurrence of [sep]:
    [Some (before, after)], or [None] when [sep] does not occur. *)
Fixpoint split_at (sep s : string) : option (string * string) :=
  if String.prefix sep s then Some (EmptyString, drop_chars (String.length sep) s)
  else
    match s with
    | EmptyString => None
    | String c s' =>
        match split_at sep s' with
        | Some (b, a) => Some (String c b, a)
        | None => None
        end
    end.

(** [new Set(l)] over strings, and [set.has(x)]. *)
Definition Set_of (l : list string) : gset string := list_to_set l.
Definition has (st : gset string) (x : string) : bool := bool_decide (x ∈ st).

(** [l.includes(x)] on an array of strings. *)
Definition array_includes (l : list string) (x : string) : bool :=
  bool_decide (x ∈ l).

(** What the regular expression of the extractor relies on: a backquote is
    not white space.  Skipping white space stops at a fence, brings no
    backquote, and does not change what [trim] returns. *)
Definition SpaceLaws (rt : Runtime) : Prop :=
  (forall a b : string,
     trimStart (a +:+ "```" +:+ b) = trimStart a +:+ "```" +:+ b)
  /\ (forall a : string,
        includes a "`" = false -> includes (trimStart a) "`" = false)
  /\ (forall a : string, trim (trimStart a) = trim a).

End JS.

(** ** Profile records ([routes/profile.ts], [services/profile.ts]) *)

(** [interface UserProfile] *)
Record UserProfile := {
  userId : Z;
  preferredHeroes : list string;
  preferredRoles : list string;
  skillLevel : option string;
  mmrBracket : option string;
  playstyle : option string;
  learningGoals : list string;
  createdAt : string;
  updatedAt : string
}.

(** [Partial<UserProfile>], with the six fields that [evolveProfile] may set
    and [updateProfile] reads; [None] is a field left [undefined]. *)
Record PartialUserProfile := {
  upd_preferredHeroes : option (list string);
  upd_preferredRoles : option (list string);
  upd_skillLevel : option (option string);
  upd_mmrBracket : option (option string);
  upd_playstyle : option (option string);
  upd_learningGoals : option (list string)
}.

(** [interface ExtractedPreferences] *)
Record ExtractedPreferences := {
  heroes : option (list string);
  roles : option (list string);
  ex_skillLevel : option string;
  ex_playstyle : option string;
  ex_learningGoals : option (list string)
}.

(** The object literal [{}]. *)
Definition emptyPreferences : ExtractedPreferences :=
  {| heroes := None; roles := None; ex_skillLevel := None;
     ex_playstyle := None; ex_learningGoals := None |}.

Definition emptyPartial : PartialUserProfile :=
  {| upd_preferredHeroes := None; upd_preferredRoles := None;
     upd_skillLevel := None; upd_mmrBracket := None;
     upd_playstyle := None; upd_learningGoals := None |}.

(** ** The evolution engine ([services/memory.ts]) *)

Module Memory.
Import JS.

Inductive Action := add | replace | merge.

(** The values stored in [oldValue] and [newValue] (declared [unknown]). *)
Inductive unknown :=
| VList (l : list string)
| VStr (s : string)
| VNull.

Definition of_nullable (o : option string) : unknown :=
  match o with
  | Some s => VStr s
  | None => VNull
  end.

(** [interface MemoryUpdate] *)
Record MemoryUpdate := {
  field : string;
  oldValue : unknown;
  newValue : unknown;
  action : Action
}.

(** [interface EvolutionResult] *)
Record EvolutionResult := {
  updated : PartialUserProfile;
  changes : list MemoryUpdate
}.

(** Two assignments to one field of an object in a row: the later value
    when there is one, the earlier otherwise. *)
Definition overlay {A : Type} (own base : option A) : option A :=
  match own with
  | Some v => Some v
  | None => base
  end.

(** [const updated = {}] and [const changes = []]. *)
Definition initial : EvolutionResult :=
  {| updated := emptyPartial; changes := [] |}.

(** Assignments [updated.f = v]. *)
Definition set_preferredHeroes (v : list string) (u : PartialUserProfile) :=
  {| upd_preferredHeroes := Some v; upd_preferredRoles := upd_preferredRoles u;
     upd_skillLevel := upd_skillLevel u; upd_mmrBracket := upd_mmrBracket u;
     upd_playstyle := upd_playstyle u; upd_learningGoals := upd_learningGoals u |}.

Definition set_preferredRoles (v : list string) (u : PartialUserProfile) :=
  {| upd_preferredHeroes := upd_preferredHeroes u; upd_preferredRoles := Some v;
     upd_skillLevel := upd_skillLevel u; upd_mmrBracket := upd_mmrBracket u;
     upd_playstyle := upd_playstyle u; upd_learningGoals := upd_learningGoals u |}.

Definition set_skillLevel (v : string) (u : PartialUserProfile) :=
  {| upd_preferredHeroes := upd_preferredHeroes u;
     upd_preferredRoles := upd_preferredRoles u;
     upd_skillLevel := Some (Some v); upd_mmrBracket := upd_mmrBracket u;
     upd_playstyle := upd_playstyle u; upd_learningGoals := upd_learningGoals u |}.

Definition set_playstyle (v : string) (u : PartialUserProfile) :=
  {| upd_preferredHeroes := upd_preferredHeroes u;
     upd_preferredRoles := upd_preferredRoles u;
     upd_skillLevel := upd_skillLevel u; upd_mmrBracket := upd_mmrBracket u;
     upd_playstyle := Some (Some v); upd_learningGoals := upd_learningGoals u |}.

Definition set_learningGoals (v : list string) (u : PartialUserProfile) :=
  {| upd_preferredHeroes := upd_preferredHeroes u;
     upd_preferredRoles := upd_preferredRoles u;
     upd_skillLevel := upd_skillLevel u; upd_mmrBracket := upd_mmrBracket u;
     upd_playstyle := upd_playstyle u; upd_learningGoals := Some v |}.

(** [changes.push(c)] together with [updated.f = v]. *)
Definition record (f : PartialUserProfile -> PartialUserProfile)
    (c : MemoryUpdate) (st : EvolutionResult) : EvolutionResult :=
  {| updated := f (updated st); changes := changes st ++ [c] |}.

(** [extracted.heroes.filter((h) => !currentHeroes.has(h))] *)
Definition newHeroes (current : list string) (hs : list string) : list string :=
  let currentHeroes := Set_of current in
  filter (fun h => negb (has currentHeroes h)) hs.

(** [xs.filter((r) => !currentSet.has(r.toLowerCase()))] where [currentSet]
    holds the lower-cased entries of [current]; used for roles and goals. *)
Definition newLowered {rt : Runtime}
    (current : list string) (xs : list string) : list string :=
  let currentSet := Set_of (toLowerCase <$> current) in
  filter (fun r => negb (has currentSet (toLowerCase r))) xs.

(** The block [// preferredHeroes: Add new heroes, don't remove old ones]. *)
Definition evolveHeroes (current : UserProfile) (extracted : ExtractedPreferences)
    (st : EvolutionResult) : EvolutionResult :=
  match heroes extracted with
  | Some hs =>
      if (0 <? length hs)%nat then
        let fresh := newHeroes (preferredHeroes current) hs in
        if (0 <? length fresh)%nat then
          let mergedHeroes := preferredHeroes current ++ fresh in
          record (set_preferredHeroes mergedHeroes)
            {| field := "preferredHeroes";
               oldValue := VList (preferredHeroes current);
               newValue := VList mergedHeroes;
               action := add |} st
        else st
      else st
  | None => st
  end.

(** The block [// preferredRoles: Add new roles, keep existing]. *)
Definition evolveRoles {rt : Runtime}
    (current : UserProfile) (extracted : ExtractedPreferences)
    (st : EvolutionResult) : EvolutionResult :=
  match roles extracted with
  | Some rs =>
      if (0 <? length rs)%nat then
        let fresh := newLowered (preferredRoles current) rs in
        if (0 <? length fresh)%nat then
          let mergedRoles := preferredRoles current ++ fresh in
          record (set_preferredRoles mergedRoles)
            {| field := "preferredRoles";
               oldValue := VList (preferredRoles current);
               newValue := VList mergedRoles;
               action := add |} st
        else st
      else st
  | None => st
  end.

(** The block [// skillLevel: Replace with newer value]. *)
Definition evolveSkillLevel (current : UserProfile) (extracted : ExtractedPreferences)
    (st : EvolutionResult) : EvolutionResult :=
  match ex_skillLevel extracted with
  | Some s =>
      if truthy s then
        if bool_decide (skillLevel current = Some s) then st
        else
          record (set_skillLevel s)
            {| field := "skillLevel";
               oldValue := of_nullable (skillLevel current);
               newValue := VStr s;
               action := replace |} st
      else st
  | None => st
  end.

(** The block [// playstyle: Append/refine if different].  The first branch
    is taken when [!current.playstyle]: [null] or the empty string. *)
Definition evolvePlaystyle {rt : Runtime}
    (current : UserProfile) (extracted : ExtractedPreferences)
    (st : EvolutionResult) : EvolutionResult :=
  match ex_playstyle extracted with
  | Some s =>
      if truthy s then
        let fresh :=
          record (set_playstyle s)
            {| field := "playstyle";
               oldValue := of_nullable (playstyle current);
               newValue := VStr s;
               action := replace |} st in
        match playstyle current with
        | None => fresh
        | Some old =>
            if negb (truthy old) then fresh
            else if negb (includes (toLowerCase old) (toLowerCase s)) then
              let merged := old +:+ ", " +:+ s in
              record (set_playstyle merged)
                {| field := "playstyle";
                   oldValue := VStr old;
                   newValue := VStr merged;
                   action := merge |} st
            else st
        end
      else st
  | None => st
  end.

(** The block [// learningGoals: Add new goals]. *)
Definition evolveGoals {rt : Runtime}
    (current : UserProfile) (extracted : ExtractedPreferences)
    (st : EvolutionResult) : EvolutionResult :=
  match ex_learningGoals extracted with
  | Some gs =>
      if (0 <? length gs)%nat then
        let fresh := newLowered (learningGoals current) gs in
        if (0 <? length fresh)%nat then
          let mergedGoals := learningGoals current ++ fresh in
          record (set_learningGoals mergedGoals)
            {| field := "learningGoals";
               oldValue := VList (learningGoals current);
               newValue := VList mergedGoals;
               action := add |} st
        else st
      else st
  | None => st
  end.

(** [export function evolveProfile(current, extracted)] *)
Definition evolveProfile {rt : Runtime}
    (current : UserProfile) (extracted : ExtractedPreferences)
    : EvolutionResult :=
  let st1 := evolveHeroes current extracted initial in
  let st2 := evolveRoles current extracted st1 in
  let st3 := evolveSkillLevel current extracted st2 in
  let st4 := evolvePlaystyle current extracted st3 in
  evolveGoals current extracted st4.

End Memory.

(** ** Profile storage ([routes/profile.ts]) *)

Module Routes.

(** [updateProfile(db, profile)] followed by [getProfile(db)], on the row of
    the single user.  The list columns hold [JSON.stringify] of the array and
    are read back with [JSON.parse], which gives the array back; [now] is the
    value of [datetime('now')].  With no field to write the row is left
    alone, [updated_at] included. *)
Definition updateProfile (now : string) (row : UserProfile)
    (profile : PartialUserProfile) : UserProfile :=
  match upd_preferredHeroes profile, upd_preferredRoles profile,
        upd_skillLevel profile, upd_mmrBracket profile,
        upd_playstyle profile, upd_learningGoals profile with
  | None, None, None, None, None, None => row
  | hs, rs, sl, mb, ps, gs =>
      {| userId := userId row;
         preferredHeroes := JS.nullish hs (preferredHeroes row);
         preferredRoles := JS.nullish rs (preferredRoles row);
         skillLevel := JS.nullish sl (skillLevel row);
         mmrBracket := JS.nullish mb (mmrBracket row);
         playstyle := JS.nullish ps (playstyle row);
         learningGoals := JS.nullish gs (learningGoals row);
         createdAt := createdAt row;
         updatedAt := now |}
  end.

End Routes.

(** ** The provider gateway ([services/llm.ts]) *)

Module Llm.
Import JS.

Inductive ChatRole := system | user | assistant.

#[global] Instance ChatRole_eq_dec : EqDecision ChatRole.
Proof. solve_decision. Defined.

Record ChatMessage := { role : ChatRole; content : string }.

Inductive Provider := openai | anthropic | openrouter.

Record LLMConfig := {
  provider : Provider;
  apiKey : string;
  model : option string;
  baseUrl : option string
}.

Record LLMOptions := {
  temperature : option Q;
  maxTokens : option nat;
  systemPrompt : option string
}.

Record Usage := { inputTokens : nat; outputTokens : nat }.

Record LLMResponse := { resp_content : string; usage : option Usage }.

(** [new Error(message)] *)
Inductive Error := mkError (message : string).

(** The two errors thrown for a response without content, which the
    specification calls [EmptyCompletion]. *)
Definition EmptyCompletionOpenAI : Error := mkError "Empty response from LLM".
Definition EmptyCompletionAnthropic : Error :=
  mkError "Empty response from Anthropic".

Definition DEFAULT_MODELS (p : Provider) : string :=
  match p with
  | openai => "gpt-4o-mini"
  | anthropic => "claude-sonnet-4-20250514"
  | openrouter => "openai/gpt-4o-mini"
  end.

Definition DEFAULT_URLS (p : Provider) : string :=
  match p with
  | openai => "https://api.openai.com/v1"
  | anthropic => "https://api.anthropic.com/v1"
  | openrouter => "https://openrouter.ai/api/v1"
  end.

(** The private state of [class LLMService]. *)
Record LLMService := {
  config : LLMConfig;
  svc_baseUrl : string;
  svc_model : string
}.

(** [constructor(config)] *)
Definition new_LLMService (cfg : LLMConfig) : LLMService :=
  {| config := cfg;
     svc_baseUrl := nullish (baseUrl cfg) (DEFAULT_URLS (provider cfg));
     svc_model := nullish (model cfg) (DEFAULT_MODELS (provider cfg)) |}.

Definition getModel (self : LLMService) : string := svc_model self.

Definition getProvider (self : LLMService) : Provider := provider (config self).

(** *** The wire *)

(** The argument of [fetch]; the body is kept as the object handed to
    [JSON.stringify]. *)
Record Request (B : Type) := {
  url : string;
  method : string;
  headers : list (string * string);
  body : B
}.
Arguments url {B}.
Arguments method {B}.
Arguments headers {B}.
Arguments body {B}.

(** What the code reads of a response: [resp.ok], [resp.status],
    [await resp.text()] and [(await resp.json()) as D]. *)
Record Response (D : Type) := {
  ok : bool;
  status : nat;
  text : string;
  json : D
}.
Arguments ok {D}.
Arguments status {D}.
Arguments text {D}.
Arguments json {D}.

Record OpenAIBody := {
  oa_model : string;
  oa_messages : list ChatMessage;
  oa_temperature : Q;
  oa_max_tokens : nat
}.

Record OpenAIMessage := { oa_content : option string }.
Record OpenAIChoice := { oa_message : option OpenAIMessage }.
Record OpenAIUsage := {
  prompt_tokens : option nat;
  completion_tokens : option nat
}.
Record OpenAIData := {
  choices : option (list OpenAIChoice);
  oa_usage : option OpenAIUsage
}.

Record AnthropicBody := {
  an_model : string;
  an_messages : list ChatMessage;
  an_max_tokens : nat;
  an_temperature : Q;
  an_system : option string
}.

Record AnthropicBlock := { block_type : string; block_text : option string }.
Record AnthropicUsage := {
  input_tokens : option nat;
  output_tokens : option nat
}.
Record AnthropicData := {
  an_content : option (list AnthropicBlock);
  an_usage : option AnthropicUsage
}.

(** The two endpoints reached through [fetch], one per wire format. *)
Record Network := {
  fetchOpenAI : Request OpenAIBody -> Response OpenAIData;
  fetchAnthropic : Request AnthropicBody -> Response AnthropicData
}.

(** The system messages, resp. the other messages, of an input, in order. *)
Definition systemOf (msgs : list ChatMessage) : list ChatMessage :=
  filter (fun x => role x = system) msgs.

Definition conversationOf (msgs : list ChatMessage) : list ChatMessage :=
  filter (fun x => role x <> system) msgs.

(** *** [chatOpenAI] *)

Definition openAIHeaders (self : LLMService) : list (string * string) :=
  let headers :=
    [("content-type", "application/json");
     ("authorization", "Bearer " +:+ apiKey (config self))] in
  match provider (config self) with
  | openrouter =>
      headers ++ [("HTTP-Referer", "http://localhost");
                  ("X-Title", "dota2-interactive-agent")]
  | _ => headers
  end.

Definition openAIRequest (self : LLMService) (messages : list ChatMessage)
    (temp : Q) (maxTok : nat) : Request OpenAIBody :=
  {| url := svc_baseUrl self +:+ "/chat/completions";
     method := "POST";
     headers := openAIHeaders self;
     body := {| oa_model := svc_model self;
                oa_messages := messages;
                oa_temperature := temp;
                oa_max_tokens := maxTok |} |}.

(** [data.choices?.[0]?.message?.content ?? ''] *)
Definition openAIContent (data : OpenAIData) : string :=
  nullish (((choices data ≫= head) ≫= oa_message) ≫= oa_content) "".

Definition chatOpenAI (self : LLMService)
    (fetch : Request OpenAIBody -> Response OpenAIData)
    (messages : list ChatMessage) (temp : Q) (maxTok : nat)
    : Error + LLMResponse :=
  let resp := fetch (openAIRequest self messages temp maxTok) in
  if negb (ok resp) then
    inl (mkError ("LLM request failed (" +:+ pretty (status resp) +:+ "): "
                  +:+ text resp))
  else
    let data := json resp in
    let content := openAIContent data in
    if negb (truthy content) then inl EmptyCompletionOpenAI
    else
      inr {| resp_content := content;
             usage :=
               match oa_usage data with
               | Some u =>
                   Some {| inputTokens := nullish (prompt_tokens u) 0%nat;
                           outputTokens := nullish (completion_tokens u) 0%nat |}
               | None => None
               end |}.

(** *** [chatAnthropic] *)

(** One turn of [for (const msg of messages)] on the pair
    [(systemPrompt, conversationMessages)]. *)
Definition anthropicStep (st : option string * list ChatMessage)
    (msg : ChatMessage) : option string * list ChatMessage :=
  match role msg with
  | system => (Some (content msg), snd st)
  | r => (fst st, snd st ++ [{| role := r; content := content msg |}])
  end.

Definition anthropicSplit (messages : list ChatMessage)
    : option string * list ChatMessage :=
  fold_left anthropicStep messages (None, []).

Definition anthropicBody (self : LLMService) (messages : list ChatMessage)
    (temp : Q) (maxTok : nat) : AnthropicBody :=
  let '(systemPrompt, conversationMessages) := anthropicSplit messages in
  {| an_model := svc_model self;
     an_messages := conversationMessages;
     an_max_tokens := maxTok;
     an_temperature := temp;
     an_system := if truthy_opt systemPrompt then systemPrompt else None |}.

Definition anthropicRequest (self : LLMService) (messages : list ChatMessage)
    (temp : Q) (maxTok : nat) : Request AnthropicBody :=
  {| url := svc_baseUrl self +:+ "/messages";
     method := "POST";
     headers := [("content-type", "application/json");
                 ("x-api-key", apiKey (config self));
                 ("anthropic-version", "2023-06-01")];
     body := anthropicBody self messages temp maxTok |}.

(** [data.content?.find((c) => c.type === 'text')?.text ?? ''] *)
Definition anthropicContent (data : AnthropicData) : string :=
  nullish
    ((an_content data
        ≫= List.find (fun c => String.eqb (block_type c) "text"))
       ≫= block_text) "".

Definition chatAnthropic (self : LLMService)
    (fetch : Request AnthropicBody -> Response AnthropicData)
    (messages : list ChatMessage) (temp : Q) (maxTok : nat)
    : Error + LLMResponse :=
  let resp := fetch (anthropicRequest self messages temp maxTok) in
  if negb (ok resp) then
    inl (mkError ("Anthropic request failed (" +:+ pretty (status resp)
                  +:+ "): " +:+ text resp))
  else
    let data := json resp in
    let textContent := anthropicContent data in
    if negb (truthy textContent) then inl EmptyCompletionAnthropic
    else
      inr {| resp_content := textContent;
             usage :=
               match an_usage data with
               | Some u =>
                   Some {| inputTokens := nullish (input_tokens u) 0%nat;
                           outputTokens := nullish (output_tokens u) 0%nat |}
               | None => None
               end |}.

(** *** [chat] *)

Definition chat (self : LLMService) (net : Network)
    (messages : list ChatMessage) (options : LLMOptions)
    : Error + LLMResponse :=
  let temp := nullish (temperature options) (7 # 10)%Q in
  let maxTok := nullish (maxTokens options) 1024%nat in
  match provider (config self) with
  | anthropic => chatAnthropic self (fetchAnthropic net) messages temp maxTok
  | _ => chatOpenAI self (fetchOpenAI net) messages temp maxTok
  end.

(** *** [createLLMService] *)

Record Env := {
  ANTHROPIC_API_KEY : option string;
  OPENAI_API_KEY : option string;
  OPENROUTER_API_KEY : option string;
  LLM_PROVIDER : option string;
  LLM_MODEL : option string
}.

(** The value of an environment variable when it is truthy. *)
Definition present (k : option string) : option string :=
  match k with
  | Some s => if truthy s then Some s else None
  | None => None
  end.

(** [preferredProvider === name && key] *)
Definition preferred (env : Env) (name : string) (key : option string)
    : option string :=
  if bool_decide (LLM_PROVIDER env = Some name) then present key else None.

(** The error thrown when no key is set, which the specification calls
    [NoProviderConfigured]. *)
Definition NoProviderConfigured : Error :=
  mkError "No LLM API key provided. Set ANTHROPIC_API_KEY, OPENAI_API_KEY, or OPENROUTER_API_KEY".

Definition createLLMService (env : Env) : Error + LLMService :=
  let make p k :=
    inr (new_LLMService
           {| provider := p; apiKey := k; model := LLM_MODEL env;
              baseUrl := None |}) in
  match preferred env "anthropic" (ANTHROPIC_API_KEY env) with
  | Some k => make anthropic k
  | None =>
  match preferred env "openai" (OPENAI_API_KEY env) with
  | Some k => make openai k
  | None =>
  match preferred env "openrouter" (OPENROUTER_API_KEY env) with
  | Some k => make openrouter k
  | None =>
  (* Auto-detect provider based on available keys *)
  match present (ANTHROPIC_API_KEY env) with
  | Some k => make anthropic k
  | None =>
  match present (OPENAI_API_KEY env) with
  | Some k => make openai k
  | None =>
  match present (OPENROUTER_API_KEY env) with
  | Some k => make openrouter k
  | None => inl NoProviderConfigured
  end end end end end end.

End Llm.

(** ** What a call sends over the wire *)

Module Wire.

(** [call], which is handed the endpoint, consults it at requests that
    satisfy [sent] and nowhere else: whatever the endpoint answers to any
    other request, the outcome of the call is the same. *)
Definition consultsOnly {B D R : Type} (call : (B -> D) -> R)
    (sent : B -> Prop) : Prop :=
  forall fetch fetch' : B -> D,
    (forall req, sent req -> fetch req = fetch' req) ->
    call fetch = call fetch'.

(** [call] does consult the endpoint: its outcome depends on the answer. *)
Definition consults {B D R : Type} (call : (B -> D) -> R) : Prop :=
  exists fetch fetch' : B -> D, call fetch <> call fetch'.

(** [call] sends a request, and what it sends satisfies [sent]. *)
Definition sends {B D R : Type} (call : (B -> D) -> R)
    (sent : B -> Prop) : Prop :=
  consults call /\ consultsOnly call sent.

(** The same for a call that is handed both endpoints of the gateway:
    [sentOpenAI] and [sentAnthropic] hold of every request that reaches the
    OpenAI-compatible endpoint, resp. the Anthropic endpoint. *)
Definition reaches {R : Type} (call : Llm.Network -> R)
    (sentOpenAI : Llm.Request Llm.OpenAIBody -> Prop)
    (sentAnthropic : Llm.Request Llm.AnthropicBody -> Prop) : Prop :=
  forall net net' : Llm.Network,
    (forall req, sentOpenAI req ->
       Llm.fetchOpenAI net req = Llm.fetchOpenAI net' req) ->
    (forall req, sentAnthropic req ->
       Llm.fetchAnthropic net req = Llm.fetchAnthropic net' req) ->
    call net = call net'.

End Wire.

(** ** The selection policy in the words of the specification *)

Module Spec.
Import JS Llm.

Definition providerOfName (name : string) : option Provider :=
  if String.eqb name "anthropic" then Some anthropic
  else if String.eqb name "openai" then Some openai
  else if String.eqb name "openrouter" then Some openrouter
  else None.

(** The API key of a provider in the environment. *)
Definition keyOf (env : Env) (p : Provider) : option string :=
  match p with
  | anthropic => ANTHROPIC_API_KEY env
  | openai => OPENAI_API_KEY env
  | openrouter => OPENROUTER_API_KEY env
  end.

(** A key is present when the variable holds a non-empty string. *)
Definition keyPresent (env : Env) (p : Provider) : bool :=
  truthy_opt (keyOf env p).

(** "In fixed priority order, Anthropic, then OpenAI, then OpenRouter, based
    on which API key is present." *)
Definition byPriority (env : Env) : option Provider :=
  List.find (keyPresent env) [anthropic; openai; openrouter].

(** "If an explicit provider preference is given and its key is present, use
    it; otherwise pick [by priority]; fail if none is present." *)
Definition selectProvider (env : Env) : option Provider :=
  match LLM_PROVIDER env ≫= providerOfName with
  | Some p => if keyPresent env p then Some p else byPriority env
  | None => byPriority env
  end.

(** The gateway built for the selected provider. *)
Definition selected (env : Env) : Error + LLMService :=
  match selectProvider env with
  | Some p =>
      inr (new_LLMService
             {| provider := p; apiKey := nullish (keyOf env p) "";
                model := LLM_MODEL env; baseUrl := None |})
  | None => inl NoProviderConfigured
  end.

End Spec.

(** ** The preference extractor ([services/profile.ts]) *)

Module Profile.
Import JS.

(** The value returned by [JSON.parse].  An object is the list of its own
    properties, one binding per key; the numeric value plays no part in the
    validation. *)
Inductive json :=
| JNull
| JBool (b : bool)
| JNumber (n : Z)
| JString (s : string)
| JArray (l : list json)
| JObject (fields : list (string * json)).

(** What the body of the [try] block can throw. *)
Inductive Thrown :=
| ChatError (e : Llm.Error)
| SyntaxError
| TypeError.

(** The error monad of the [try] block. *)
Definition Try (A : Type) : Type := Thrown + A.

Definition bind {A B : Type} (m : Try A) (k : A -> Try B) : Try B :=
  match m with
  | inl e => inl e
  | inr a => k a
  end.

Notation "'try!' x <- m ; k" := (bind m (fun x => k))
  (at level 10, x name, m at level 100, k at level 200).

Fixpoint assoc (k : string) (fields : list (string * json)) : option json :=
  match fields with
  | [] => None
  | (k', v) :: rest => if String.eqb k k' then Some v else assoc k rest
  end.

(** [parsed.k] for one of the five field names read by the validation: a
    [TypeError] on [null], the property of an object, [undefined] on every
    other value. *)
Definition get (parsed : json) (k : string) : Try (option json) :=
  match parsed with
  | JNull => inl TypeError
  | JObject fields => inr (assoc k fields)
  | _ => inr None
  end.

(** [Array.isArray(v) && v.length > 0], giving the array. *)
Definition nonEmptyArray (v : option json) : option (list json) :=
  match v with
  | Some (JArray l) => if (0 <? length l)%nat then Some l else None
  | _ => None
  end.

(** [typeof v === 'string'], giving the string. *)
Definition asString (v : json) : option string :=
  match v with
  | JString s => Some s
  | _ => None
  end.

(** [l.filter((h: unknown) => typeof h === 'string')] *)
Definition strings (l : list json) : list string := omap asString l.

Definition validRoles : list string :=
  ["carry"; "mid"; "offlane"; "soft support"; "hard support"; "support"].

(** [l.filter((r) => typeof r === 'string' && validRoles.includes(r.toLowerCase()))] *)
Definition filterRoles {rt : Runtime} (l : list json) : list string :=
  filter (fun r => array_includes validRoles (toLowerCase r)) (strings l).

(** [typeof v === 'string' && v.trim()], giving [v.trim()]. *)
Definition trimmed {rt : Runtime} (v : option json) : option string :=
  match v with
  | Some (JString s) => if truthy (trim s) then Some (trim s) else None
  | _ => None
  end.

(** [// Validate and sanitize the response] *)
Definition validate {rt : Runtime} (parsed : json) : Try ExtractedPreferences :=
  try! h <- get parsed "heroes";
  try! r <- get parsed "roles";
  try! sl <- get parsed "skillLevel";
  try! ps <- get parsed "playstyle";
  try! g <- get parsed "learningGoals";
  inr {| heroes := strings <$> nonEmptyArray h;
         roles := filterRoles <$> nonEmptyArray r;
         ex_skillLevel := trimmed sl;
         ex_playstyle := trimmed ps;
         ex_learningGoals := strings <$> nonEmptyArray g |}.

(** The capture group of [content.match(/```(?:json)?\s*([\s\S]*?)```/)].
    The match starts at the first fence; [json] and the white space after
    it are consumed greedily, and the lazy group stops at the next fence.
    Neither [json] nor white space holds a backquote, so when no fence
    follows there is no match at all. *)
Definition fenced {rt : Runtime} (content : string) : option string :=
  match split_at "```" content with
  | None => None
  | Some (_, rest) =>
      let rest := if String.prefix "json" rest then drop_chars 4 rest else rest in
      match split_at "```" (trimStart rest) with
      | Some (captured, _) => Some captured
      | None => None
      end
  end.

(** [// Extract JSON from potential markdown code blocks] *)
Definition jsonStr {rt : Runtime} (content : string) : string :=
  match fenced content with
  | Some captured => trim captured
  | None => content
  end.

(** The double quote character. *)
Definition dquote : ascii := "034"%char.

Definition quoted (s : string) : string :=
  String dquote (s +:+ String dquote "").

Definition quotedList (l : list string) : string :=
  String.concat ", " (quoted <$> l).

Definition EXTRACTION_PROMPT : string :=
  String.concat (String "010"%char "")
    ["You are analyzing a Dota 2 player's message to extract their preferences and profile information.";
     "";
     "Extract ONLY information that is CLEARLY and EXPLICITLY stated in the message. Do not assume or infer.";
     "";
     "Return a JSON object with these optional fields (include only fields that are clearly mentioned):";
     "- heroes: array of hero names mentioned positively (e.g., " +:+
       quoted "I play Anti-Mage" +:+ " or " +:+ quoted "I love PA" +:+ ")";
     "- roles: array of roles mentioned (valid: " +:+
       quotedList ["carry"; "mid"; "offlane"; "soft support"; "hard support"]
       +:+ ")";
     "- skillLevel: their rank if mentioned (e.g., " +:+
       quotedList ["Herald"; "Guardian"; "Crusader"; "Archon"; "Legend";
                   "Ancient"; "Divine"; "Immortal"] +:+ ")";
     "- playstyle: description of their playstyle if mentioned (e.g., " +:+
       quotedList ["aggressive"; "farming focused"; "team fighter"] +:+ ")";
     "- learningGoals: array of things they want to learn or improve";
     "";
     "Rules:";
     "- Only include fields where information is EXPLICITLY stated";
     "- Hero names should be full official names (e.g., " +:+
       quoted "Anti-Mage" +:+ " not " +:+ quoted "AM" +:+ ", " +:+
       quoted "Phantom Assassin" +:+ " not " +:+ quoted "PA" +:+ ")";
     "- Be conservative - when in doubt, don't include it";
     "- Return ONLY valid JSON, no explanation";
     "";
     "User message: "].

(** The part of the [try] block that follows the call of the gateway:
    [JSON.parse(jsonStr)] throws a [SyntaxError] on text that is not JSON. *)
Definition parseAndValidate {rt : Runtime} (JSON_parse : string -> option json)
    (completion : string) : Try ExtractedPreferences :=
  let content := trim completion in
  match JSON_parse (jsonStr content) with
  | None => inl SyntaxError
  | Some parsed => validate parsed
  end.

(** The single-turn request of the extractor and its options. *)
Definition extractionMessages (message : string) : list Llm.ChatMessage :=
  [{| Llm.role := Llm.user; Llm.content := EXTRACTION_PROMPT +:+ message |}].

Definition extractionOptions : Llm.LLMOptions :=
  {| Llm.temperature := Some (1 # 10)%Q;
     Llm.maxTokens := Some 300%nat;
     Llm.systemPrompt := None |}.

(** The body of the [try] block of [extractPreferences]. *)
Definition extractPreferences_try {rt : Runtime} (net : Llm.Network)
    (JSON_parse : string -> option json)
    (message : string) (llm : Llm.LLMService) : Try ExtractedPreferences :=
  let messages := extractionMessages message in
  match Llm.chat llm net messages extractionOptions with
  | inl e => inl (ChatError e)
  | inr response => parseAndValidate JSON_parse (Llm.resp_content response)
  end.

(** [export async function extractPreferences(message, llm)]: whatever the
    [try] block throws is caught (and logged), and [{}] is returned. *)
Definition extractPreferences {rt : Runtime} (net : Llm.Network)
    (JSON_parse : string -> option json)
    (message : string) (llm : Llm.LLMService) : ExtractedPreferences :=
  match extractPreferences_try net JSON_parse message llm with
  | inr result => result
  | inl _ => emptyPreferences
  end.

(** [export function hasPreferences(prefs)] *)
Definition hasPreferences (prefs : ExtractedPreferences) : bool :=
  match heroes prefs with Some l => (0 <? length l)%nat | None => false end
  || match roles prefs with Some l => (0 <? length l)%nat | None => false end
  || match ex_learningGoals prefs with
     | Some l => (0 <? length l)%nat
     | None => false
     end
  || truthy_opt (ex_skillLevel prefs)
  || truthy_opt (ex_playstyle prefs).

End Profile.

(** ** Arrays of strings *)

Module JSArrays.

(** [l.join(sep)] *)
Definition join (sep : string) (l : list string) : string := String.concat sep l.

(** [l.slice(0, end)] for an integer [end]: a negative [end] counts from the
    end of the array. *)
Definition slice0 {A : Type} (last : Z) (l : list A) : list A :=
  if (last <? 0)%Z then take (Z.to_nat (Z.of_nat (length l) + last)) l
  else take (Z.to_nat last) l.

(** The line feed. *)
Definition nl : string := String "010"%char "".

End JSArrays.

(** ** The prompt synthesizer ([services/memory.ts]) *)

Module Prompt.
Import JS JSArrays.

Definition BASE : string := "You are a concise Dota 2 assistant.".

Definition CLOSING : string :=
  "Tailor advice to their level and preferences. Use provided sources. Cite with [n]. Keep answers tight and practical.".

(** [if (cond) parts.push(s)] *)
Definition pushIf (cond : bool) (s : string) (parts : list string) : list string :=
  if cond then parts ++ [s] else parts.

Definition skillSentence (s : string) : string :=
  "You are helping a " +:+ s +:+ " player.".

Definition heroSentence (hs : list string) : string :=
  "They main: " +:+ join ", " (take 5 hs) +:+ ".".

Definition roleSentence (rs : list string) : string :=
  "They prefer playing " +:+ join ", " rs +:+ ".".

Definition playstyleSentence (s : string) : string :=
  "Their playstyle is " +:+ s +:+ ".".

Definition goalSentence (gs : list string) : string :=
  "Current learning goals: " +:+ join ", " (take 3 gs) +:+ ".".

(** The array [parts] before [parts.join(' ')]. *)
Definition promptParts (profile : UserProfile) : list string :=
  let parts := [BASE] in
  let parts :=
    match skillLevel profile with
    | Some s => pushIf (truthy s) (skillSentence s) parts
    | None => parts
    end in
  let parts :=
    pushIf (0 <? length (preferredHeroes profile))%nat
      (heroSentence (preferredHeroes profile)) parts in
  let parts :=
    pushIf (0 <? length (preferredRoles profile))%nat
      (roleSentence (preferredRoles profile)) parts in
  let parts :=
    match playstyle profile with
    | Some s => pushIf (truthy s) (playstyleSentence s) parts
    | None => parts
    end in
  let parts :=
    pushIf (0 <? length (learningGoals profile))%nat
      (goalSentence (learningGoals profile)) parts in
  parts ++ [CLOSING].

(** [export function buildPersonalizedPrompt(profile)] *)
Definition buildPersonalizedPrompt (profile : UserProfile) : string :=
  join " " (promptParts profile).

(** [export function hasProfileData(profile)] *)
Definition hasProfileData (profile : UserProfile) : bool :=
  (0 <? length (preferredHeroes profile))%nat
  || (0 <? length (preferredRoles profile))%nat
  || truthy_opt (skillLevel profile)
  || truthy_opt (playstyle profile)
  || (0 <? length (learningGoals profile))%nat.

End Prompt.

(** ** The web search client ([services/search.ts]) *)

Module Search.
Import JS JSArrays.

(** [interface WebCitation] *)
Record WebCitation := {
  title : string;
  url : string;
  snippet : option string
}.

(** The [URL] handed to [fetch]: the endpoint and its search parameters. *)
Record SerpRequest := {
  endpoint : string;
  searchParams : list (string * string);
  serp_method : string
}.

Record OrganicResult := {
  or_title : option string;
  link : option string;
  or_snippet : option string
}.

Record SerpData := { organic_results : option (list OrganicResult) }.

Definition serpRequest (query apiKey : string) : SerpRequest :=
  {| endpoint := "https://serpapi.com/search.json";
     searchParams := [("engine", "google"); ("q", query); ("api_key", apiKey)];
     serp_method := "GET" |}.

(** The callback of [json.organic_results?.map(...)]. *)
Definition toCitation (r : OrganicResult) : WebCitation :=
  {| title := nullish (or_title r) (nullish (link r) "Untitled");
     url := nullish (link r) "";
     snippet := Some (nullish (or_snippet r) "") |}.

(** [export async function searchWeb(query, apiKey, options)]; [limit] is
    [options.limit], an integer when given. *)
Definition searchWeb (fetch : SerpRequest -> Llm.Response SerpData)
    (query apiKey : string) (limit : option Z)
    : Llm.Error + list WebCitation :=
  let limit := nullish limit 5%Z in
  let resp := fetch (serpRequest query apiKey) in
  if negb (Llm.ok resp) then
    inl (Llm.mkError ("SerpAPI error " +:+ pretty (Llm.status resp) +:+ ": "
                      +:+ Llm.text resp))
  else
    let items :=
      match organic_results (Llm.json resp) with
      | Some rs => toCitation <$> rs
      | None => []
      end in
    inr (slice0 limit (filter (fun r => truthy (url r)) items)).

(** [json.organic_results ?? []] of the response to a search. *)
Definition organicOf (fetch : SerpRequest -> Llm.Response SerpData)
    (query apiKey : string) : list OrganicResult :=
  nullish (organic_results (Llm.json (fetch (serpRequest query apiKey)))) [].

End Search.

(** ** Migrations ([db/index.ts]) *)

Module Db.
Import JS.

Section Migrations.

(** The tables and rows of the database other than [_migrations]; what a
    migration does to them is its own business. *)
Variable Schema : Type.

(** [interface Migration]; [up] throws when the result is [None]. *)
Record Migration := { up : Schema -> option Schema }.

(** The database: its schema and the [name] column of [_migrations], in
    insertion order. *)
Record Database := {
  schema : Schema;
  migrationNames : list string
}.

(** The loop of [runMigrations] over the entries that remain, with the set
    [applied] read before the loop.  A migration and the insertion of its
    name run in one transaction: when [up] throws, or the name is already in
    the table (the column is [UNIQUE]), the transaction is rolled back and
    the exception leaves the loop; [Some name] is the migration that threw. *)
Fixpoint runPending (applied : gset string)
    (entries : list (string * Migration)) (db : Database)
    : Database * option string :=
  match entries with
  | [] => (db, None)
  | (name, migration) :: rest =>
      if has applied name then runPending applied rest db
      else
        match up migration (schema db) with
        | None => (db, Some name)
        | Some s =>
            if bool_decide (name ∈ migrationNames db) then (db, Some name)
            else
              runPending applied rest
                {| schema := s;
                   migrationNames := migrationNames db ++ [name] |}
        end
  end.

(** [function runMigrations(db)], for the entries of [allMigrations]. *)
Definition runMigrations (allMigrations : list (string * Migration))
    (db : Database) : Database * option string :=
  let applied := Set_of (migrationNames db) in
  runPending applied allMigrations db.

End Migrations.

Arguments up {Schema}.
Arguments schema {Schema}.
Arguments migrationNames {Schema}.
Arguments runPending {Schema}.
Arguments runMigrations {Schema}.

End Db.

(** ** The chat route ([routes/chat.ts]) *)

Module Chat.
Import JS JSArrays.

(** An entry of [req.body.history] as it arrives: the role is any string or
    is missing, the content may be missing. *)
Record HistoryEntry := {
  h_role : option string;
  h_content : option string
}.

(** [history.map((h) => ({ role: ..., content: h.content ?? '' }))] *)
Definition sanitizeHistory (history : list HistoryEntry) : list Llm.ChatMessage :=
  (fun h =>
     {| Llm.role := if bool_decide (h_role h = Some "assistant")
                    then Llm.assistant else Llm.user;
        Llm.content := nullish (h_content h) "" |}) <$> history.

Definition DEFAULT_PROMPT : string :=
  "You are a concise Dota 2 assistant. Use the provided sources. Cite with [n]. Keep answers tight and practical.".

(** One entry of [numbered]. *)
Definition numberedSource {rt : Runtime}
    (idx : nat) (s : Search.WebCitation) : string :=
  trim ("[" +:+ pretty (idx + 1)%nat +:+ "] " +:+ Search.title s +:+ nl
        +:+ nullish (Search.snippet s) "" +:+ nl
        +:+ "URL: " +:+ Search.url s).

Definition systemContent (profile : option UserProfile) : string :=
  match profile with
  | Some p =>
      if Prompt.hasProfileData p then Prompt.buildPersonalizedPrompt p
      else DEFAULT_PROMPT
  | None => DEFAULT_PROMPT
  end.

(** [function buildPrompt(query, sources, profile)] *)
Definition buildPrompt {rt : Runtime}
    (query : string) (sources : list Search.WebCitation)
    (profile : option UserProfile) : Llm.ChatMessage * Llm.ChatMessage :=
  let numbered := join (nl +:+ nl) (imap numberedSource sources) in
  let systemMessage :=
    {| Llm.role := Llm.system; Llm.content := systemContent profile |} in
  let userMessage :=
    {| Llm.role := Llm.user;
       Llm.content :=
         "Question: " +:+ query +:+ nl +:+ nl +:+ "Sources:" +:+ nl
         +:+ numbered +:+ nl +:+ nl
         +:+ "Instructions: Answer in 3-6 sentences. Use [n] citations. If unsure, say so briefly." |} in
  (systemMessage, userMessage).

(** What the route reads and writes of the database: the profile row of the
    single user and the [notes] table. *)
Record Note := {
  n_query : string;
  source_url : string;
  source_title : string;
  n_snippet : string;
  tags : string;
  summary : option string
}.

Record Store := {
  profileRow : option UserProfile;
  notes : list Note
}.

(** [async function extractAndUpdateProfile(db, llm, message, profile)]:
    the profile row afterwards. *)
Definition extractAndUpdateProfile {rt : Runtime} (net : Llm.Network)
    (JSON_parse : string -> option Profile.json) (now : string)
    (row : option UserProfile) (llm : Llm.LLMService) (message : string)
    (profile : option UserProfile) : option UserProfile :=
  match profile with
  | None => row
  | Some p =>
      let extracted := Profile.extractPreferences net JSON_parse message llm in
      if negb (Profile.hasPreferences extracted) then row
      else
        let r := Memory.evolveProfile p extracted in
        if (0 <? length (Memory.changes r))%nat
        then (fun stored => Routes.updateProfile now stored (Memory.updated r))
               <$> row
        else row
  end.

(** [function persistNotes(db, query, sources)] *)
Definition persistNotes (table : list Note) (query : string)
    (sources : list Search.WebCitation) : list Note :=
  table ++
  ((fun s =>
      {| n_query := query;
         source_url := Search.url s;
         source_title := Search.title s;
         n_snippet := nullish (Search.snippet s) "";
         tags := "web,serpapi";
         summary := None |}) <$> sources).

(** The body of a [POST /api/chat] request: [message] is [None] when it is
    missing or not a string. *)
Record ChatRequest := {
  message : option string;
  history : list HistoryEntry
}.

(** The dependencies of the router and the outside world. *)
Record Deps := {
  llm : Llm.LLMService;
  serpApiKey : string;
  net : Llm.Network;
  fetchSerp : Search.SerpRequest -> Llm.Response Search.SerpData;
  JSON_parse : string -> option Profile.json;
  now : string
}.

(** [res.json(...)] with status 200, or [res.status(n).json({ error })]. *)
Inductive Reply :=
| Answer (answer : string) (citations : list (string * string))
| Failure (status : nat) (error : string).

Definition NO_SOURCES : string :=
  "I could not find relevant sources for that query right now. Try rephrasing or adding more specifics.".

(** The messages of the foreground call of the gateway. *)
Definition chatMessages {rt : Runtime}
    (query : string) (sources : list Search.WebCitation)
    (profile : option UserProfile) (history : list HistoryEntry)
    : list Llm.ChatMessage :=
  let '(systemMessage, userMessage) := buildPrompt query sources profile in
  [systemMessage] ++ sanitizeHistory history ++ [userMessage].

(** The handler of [router.post('/')]: the reply and the store once the
    background task has finished. *)
Definition postChat {rt : Runtime}
    (deps : Deps) (st : Store) (req : ChatRequest)
    : Reply * Store :=
  let message := nullish (message req) "" in
  if negb (truthy (trim message)) then (Failure 400 "message is required", st)
  else if negb (truthy (serpApiKey deps)) then
    (Failure 500 "SERPAPI_API_KEY is missing", st)
  else
    let profile := profileRow st in
    let row :=
      extractAndUpdateProfile (net deps) (JSON_parse deps) (now deps)
        (profileRow st) (llm deps) message profile in
    match Search.searchWeb (fetchSerp deps) message (serpApiKey deps) None with
    | inl _ =>
        (Failure 500 "Failed to complete request",
         {| profileRow := row; notes := notes st |})
    | inr serpResults =>
        if negb (0 <? length serpResults)%nat then
          (Answer NO_SOURCES [], {| profileRow := row; notes := notes st |})
        else
          let table := persistNotes (notes st) message serpResults in
          let citations :=
            (fun r => (Search.title r, Search.url r)) <$> serpResults in
          match Llm.chat (llm deps) (net deps)
                  (chatMessages message serpResults profile (history req))
                  {| Llm.temperature := Some (1 # 5)%Q;
                     Llm.maxTokens := Some 400%nat;
                     Llm.systemPrompt := None |} with
          | inl _ =>
              (Failure 500 "Failed to complete request",
               {| profileRow := row; notes := table |})
          | inr response =>
              (Answer (Llm.resp_content response) citations,
               {| profileRow := row; notes := table |})
          end
    end.

End Chat.

(** ** Reading a field by its name *)

Module Audit.
Import Memory.

(** [current[f]] for the five fields that [evolveProfile] reports on. *)
Definition currentValue (current : UserProfile) (f : string) : option unknown :=
  if String.eqb f "preferredHeroes" then Some (VList (preferredHeroes current))
  else if String.eqb f "preferredRoles" then Some (VList (preferredRoles current))
  else if String.eqb f "skillLevel" then Some (of_nullable (skillLevel current))
  else if String.eqb f "playstyle" then Some (of_nullable (playstyle current))
  else if String.eqb f "learningGoals" then Some (VList (learningGoals current))
  else None.

(** [updated[f]], [None] when the field is not set. *)
Definition updatedValue (u : PartialUserProfile) (f : string) : option unknown :=
  if String.eqb f "preferredHeroes" then VList <$> upd_preferredHeroes u
  else if String.eqb f "preferredRoles" then VList <$> upd_preferredRoles u
  else if String.eqb f "skillLevel" then of_nullable <$> upd_skillLevel u
  else if String.eqb f "playstyle" then of_nullable <$> upd_playstyle u
  else if String.eqb f "learningGoals" then VList <$> upd_learningGoals u
  else None.

(** A change entry agrees with the profile passed in and with [updated]. *)
Definition accurate (current : UserProfile) (u : PartialUserProfile)
    (c : MemoryUpdate) : Prop :=
  currentValue current (field c) = Some (oldValue c)
  /\ updatedValue u (field c) = Some (newValue c).

End Audit.

(** ** Sample data *)

Module Samples.
Import JS.

(** A stored profile with the given heroes, roles and playstyle. *)
Definition profile (hs rs : list string) (ps : option string) : UserProfile :=
  {| userId := 1; preferredHeroes := hs; preferredRoles := rs;
     skillLevel := None; mmrBracket := None; playstyle := ps;
     learningGoals := []; createdAt := "2025-01-01 00:00:00";
     updatedAt := "2025-01-01 00:00:00" |}.

(** A gateway for provider [p] with the default model and endpoint. *)
Definition service (p : Llm.Provider) : Llm.LLMService :=
  Llm.new_LLMService
    {| Llm.provider := p; Llm.apiKey := "sk-test"; Llm.model := None;
       Llm.baseUrl := None |}.

(** A 200 response of an OpenAI-compatible endpoint with one choice. *)
Definition openAIReply (completion : option string)
    : Llm.Response Llm.OpenAIData :=
  {| Llm.ok := true; Llm.status := 200; Llm.text := "";
     Llm.json :=
       {| Llm.choices :=
            Some [{| Llm.oa_message := Some {| Llm.oa_content := completion |} |}];
          Llm.oa_usage := None |} |}.

(** A 200 response of the Anthropic endpoint with one text block. *)
Definition anthropicReply (completion : option string)
    : Llm.Response Llm.AnthropicData :=
  {| Llm.ok := true; Llm.status := 200; Llm.text := "";
     Llm.json :=
       {| Llm.an_content :=
            Some [{| Llm.block_type := "text"; Llm.block_text := completion |}];
          Llm.an_usage := None |} |}.

(** A network whose endpoints answer every request with [completion]. *)
Definition network (completion : option string) : Llm.Network :=
  {| Llm.fetchOpenAI := fun _ => openAIReply completion;
     Llm.fetchAnthropic := fun _ => anthropicReply completion |}.

(** A network whose Anthropic endpoint tells a request with a [system]
    field from one without. *)
Definition systemAware : Llm.Network :=
  {| Llm.fetchOpenAI := fun _ => openAIReply (Some "from openai");
     Llm.fetchAnthropic := fun req =>
       match Llm.an_system (Llm.body req) with
       | None => anthropicReply (Some "gg")
       | Some _ => anthropicReply (Some "system seen")
       end |}.

Definition noOptions : Llm.LLMOptions :=
  {| Llm.temperature := None; Llm.maxTokens := None;
     Llm.systemPrompt := None |}.

(** The JSON text [{"roles":["jungler", "carry"]}]. *)
Definition rolesText : string :=
  "{" +:+ Profile.quoted "roles" +:+ ":["
  +:+ Profile.quotedList ["jungler"; "carry"] +:+ "]}".

(** [JSON.parse] on the texts used in the examples below; any other text
    is taken to be malformed. *)
Definition parse (text : string) : option Profile.json :=
  if String.eqb text "null" then Some Profile.JNull
  else if String.eqb text "{}" then Some (Profile.JObject [])
  else if String.eqb text rolesText then
    Some (Profile.JObject
            [("roles", Profile.JArray [Profile.JString "jungler";
                                       Profile.JString "carry"])])
  else None.

(** The extracted record [{ playstyle: s }]. *)
Definition onlyPlaystyle (s : string) : ExtractedPreferences :=
  {| heroes := None; roles := None; ex_skillLevel := None;
     ex_playstyle := Some s; ex_learningGoals := None |}.

(** The extracted record [{ heroes: hs }]. *)
Definition onlyHeroes (hs : list string) : ExtractedPreferences :=
  {| heroes := Some hs; roles := None; ex_skillLevel := None;
     ex_playstyle := None; ex_learningGoals := None |}.

(** The extracted record [{ roles: rs }]. *)
Definition onlyRoles (rs : list string) : ExtractedPreferences :=
  {| heroes := None; roles := Some rs; ex_skillLevel := None;
     ex_playstyle := None; ex_learningGoals := None |}.

End Samples.

(** ** More sample data *)

Module Examples.
Import JS.

(** The JSON text [{"skillLevel": " Legend ", "playstyle": "aggressive"}]. *)
Definition levelText : string :=
  "{" +:+ Profile.quoted "skillLevel" +:+ ": " +:+ Profile.quoted " Legend "
  +:+ ", " +:+ Profile.quoted "playstyle" +:+ ": "
  +:+ Profile.quoted "aggressive" +:+ "}".

(** [JSON.parse] on [levelText] and on the texts of [Samples.parse]. *)
Definition parse (text : string) : option Profile.json :=
  if String.eqb text levelText then
    Some (Profile.JObject
            [("skillLevel", Profile.JString " Legend ");
             ("playstyle", Profile.JString "aggressive")])
  else Samples.parse text.

(** A profile with six heroes and four goals. *)
Definition veteran (userId : Z) (bracket : option string) : UserProfile :=
  {| userId := userId;
     preferredHeroes := ["Axe"; "Lina"; "Pudge"; "Sven"; "Zeus"; "Tiny"];
     preferredRoles := ["carry"; "mid"];
     skillLevel := Some "Legend"; mmrBracket := bracket;
     playstyle := Some "aggressive";
     learningGoals := ["last hitting"; "warding"; "stacking"; "pulling"];
     createdAt := "2025-01-01 00:00:00"; updatedAt := "2025-01-01 00:00:00" |}.

(** The same profile with another sixth hero and another fourth goal. *)
Definition veteran' : UserProfile :=
  {| userId := 2;
     preferredHeroes := ["Axe"; "Lina"; "Pudge"; "Sven"; "Zeus"; "Riki"];
     preferredRoles := ["carry"; "mid"];
     skillLevel := Some "Legend"; mmrBracket := Some "4k";
     playstyle := Some "aggressive";
     learningGoals := ["last hitting"; "warding"; "stacking"; "roaming"];
     createdAt := "2025-02-02 00:00:00"; updatedAt := "2025-03-03 00:00:00" |}.

(** A 200 response of the search with three organic results, the second
    without a link. *)
Definition serpReply : Search.SerpRequest -> Llm.Response Search.SerpData :=
  fun _ =>
    {| Llm.ok := true; Llm.status := 200; Llm.text := "";
       Llm.json :=
         {| Search.organic_results :=
              Some [{| Search.or_title := Some "Laning guide";
                       Search.link := Some "https://a.example/laning";
                       Search.or_snippet := None |};
                    {| Search.or_title := Some "No link";
                       Search.link := None;
                       Search.or_snippet := Some "lost" |};
                    {| Search.or_title := None;
                       Search.link := Some "https://b.example/meta";
                       Search.or_snippet := Some "Patch notes" |}] |} |}.

(** Migrations over a schema that is the list of the tables created. *)
Definition createTable (name : string) : Db.Migration (list string) :=
  {| Db.up := fun tables => Some (tables ++ [name]) |}.

Definition migrations : list (string * Db.Migration (list string)) :=
  [("001_initial_schema", createTable "users");
   ("002_notes", createTable "notes")].

Definition freshDb : Db.Database (list string) :=
  {| Db.schema := []; Db.migrationNames := [] |}.

Definition migratedDb : Db.Database (list string) :=
  {| Db.schema := ["users"; "notes"];
     Db.migrationNames := ["001_initial_schema"; "002_notes"] |}.

End Examples.

(** * Properties *)

(** ** Strings and sets *)

Section JSFacts.
Import JS.

Lemma truthy_spec (s : string) : truthy s = true <-> s <> "".
Proof.
  unfold truthy. rewrite negb_true_iff. split.
  - intros H ->. by rewrite String.eqb_refl in H.
  - intros H. by apply String.eqb_neq.
Qed.

Lemma truthy_append_r (a b : string) : truthy b = true -> truthy (a +:+ b) = true.
Proof.
  rewrite !truthy_spec. intros Hb Hab. apply Hb.
  destruct a; [done | discriminate].
Qed.


Lemma append_assoc (a b c : string) : a +:+ (b +:+ c) = (a +:+ b) +:+ c.
Proof.
  induction a as [|x a IH]; [done|].
  change (String x a +:+ (b +:+ c)) with (String x (a +:+ (b +:+ c))).
  by rewrite IH.
Qed.

Lemma prefix_refl (s : string) : String.prefix s s = true.
Proof.
  induction s as [|c s IH]; [done|]. cbn [String.prefix].
  destruct (ascii_dec c c) as [_|Hne]; [exact IH | by destruct Hne].
Qed.

Lemma includes_refl (s : string) : includes s s = true.
Proof. destruct s; [done|]. cbn [includes]. by rewrite prefix_refl. Qed.

Lemma includes_app_r (a b : string) : includes (a +:+ b) b = true.
Proof.
  induction a as [|c a IH]; [apply includes_refl|].
  change (String c a +:+ b) with (String c (a +:+ b)).
  cbn [includes]. rewrite IH. apply orb_true_r.
Qed.

Lemma has_Set_of (l : list string) (x : string) : has (Set_of l) x <-> x ∈ l.
Proof.
  unfold has, Set_of. rewrite bool_decide_spec. apply elem_of_list_to_set.
Qed.

Lemma not_has_Set_of (l : list string) (x : string) :
  negb (has (Set_of l) x) <-> x ∉ l.
Proof. rewrite negb_True. by rewrite has_Set_of. Qed.

End JSFacts.

(** ** The evolution engine, block by block *)

Section EvolutionBlocks.
Import JS Memory.

Variables (P : UserProfile) (E : ExtractedPreferences).
Context {rt : JS.Runtime}.

Ltac blocks :=
  unfold evolveHeroes, evolveRoles, evolveSkillLevel, evolvePlaystyle,
    evolveGoals, record;
  repeat case_match; cbn; rewrite ?app_nil_r; try done.

(** Every block only appends to [changes]. *)
Lemma evolveHeroes_changes st :
  changes (evolveHeroes P E st) = changes st ++ changes (evolveHeroes P E initial).
Proof. blocks. Qed.

Lemma evolveRoles_changes st :
  changes (evolveRoles P E st) = changes st ++ changes (evolveRoles P E initial).
Proof. blocks. Qed.

Lemma evolveSkillLevel_changes st :
  changes (evolveSkillLevel P E st)
  = changes st ++ changes (evolveSkillLevel P E initial).
Proof. blocks. Qed.

Lemma evolvePlaystyle_changes st :
  changes (evolvePlaystyle P E st)
  = changes st ++ changes (evolvePlaystyle P E initial).
Proof. blocks. Qed.

Lemma evolveGoals_changes st :
  changes (evolveGoals P E st) = changes st ++ changes (evolveGoals P E initial).
Proof. blocks. Qed.

(** Every block writes its own field of [updated] and no other. *)
Lemma evolveHeroes_updated st :
  updated (evolveHeroes P E st)
  = let u := updated st in
    {| upd_preferredHeroes :=
         overlay (upd_preferredHeroes (updated (evolveHeroes P E initial)))
                 (upd_preferredHeroes u);
       upd_preferredRoles := upd_preferredRoles u;
       upd_skillLevel := upd_skillLevel u;
       upd_mmrBracket := upd_mmrBracket u;
       upd_playstyle := upd_playstyle u;
       upd_learningGoals := upd_learningGoals u |}.
Proof. destruct st as [[] ?]. blocks. Qed.

Lemma evolveRoles_updated st :
  updated (evolveRoles P E st)
  = let u := updated st in
    {| upd_preferredHeroes := upd_preferredHeroes u;
       upd_preferredRoles :=
         overlay (upd_preferredRoles (updated (evolveRoles P E initial)))
                 (upd_preferredRoles u);
       upd_skillLevel := upd_skillLevel u;
       upd_mmrBracket := upd_mmrBracket u;
       upd_playstyle := upd_playstyle u;
       upd_learningGoals := upd_learningGoals u |}.
Proof. destruct st as [[] ?]. blocks. Qed.

Lemma evolveSkillLevel_updated st :
  updated (evolveSkillLevel P E st)
  = let u := updated st in
    {| upd_preferredHeroes := upd_preferredHeroes u;
       upd_preferredRoles := upd_preferredRoles u;
       upd_skillLevel :=
         overlay (upd_skillLevel (updated (evolveSkillLevel P E initial)))
                 (upd_skillLevel u);
       upd_mmrBracket := upd_mmrBracket u;
       upd_playstyle := upd_playstyle u;
       upd_learningGoals := upd_learningGoals u |}.
Proof. destruct st as [[] ?]. blocks. Qed.

Lemma evolvePlaystyle_updated st :
  updated (evolvePlaystyle P E st)
  = let u := updated st in
    {| upd_preferredHeroes := upd_preferredHeroes u;
       upd_preferredRoles := upd_preferredRoles u;
       upd_skillLevel := upd_skillLevel u;
       upd_mmrBracket := upd_mmrBracket u;
       upd_playstyle :=
         overlay (upd_playstyle (updated (evolvePlaystyle P E initial)))
                 (upd_playstyle u);
       upd_learningGoals := upd_learningGoals u |}.
Proof. destruct st as [[] ?]. blocks. Qed.

Lemma evolveGoals_updated st :
  updated (evolveGoals P E st)
  = let u := updated st in
    {| upd_preferredHeroes := upd_preferredHeroes u;
       upd_preferredRoles := upd_preferredRoles u;
       upd_skillLevel := upd_skillLevel u;
       upd_mmrBracket := upd_mmrBracket u;
       upd_playstyle := upd_playstyle u;
       upd_learningGoals :=
         overlay (upd_learningGoals (updated (evolveGoals P E initial)))
                 (upd_learningGoals u) |}.
Proof. destruct st as [[] ?]. blocks. Qed.

Lemma overlay_None {A : Type} (o : option A) : overlay o None = o.
Proof. by destruct o. Qed.

(** The result of [evolveProfile], field by field: each field of [updated]
    is the one its block writes, and [changes] lists the entries of the five
    blocks in program order. *)
Lemma evolveProfile_updated :
  updated (evolveProfile P E)
  = {| upd_preferredHeroes := upd_preferredHeroes (updated (evolveHeroes P E initial));
       upd_preferredRoles := upd_preferredRoles (updated (evolveRoles P E initial));
       upd_skillLevel := upd_skillLevel (updated (evolveSkillLevel P E initial));
       upd_mmrBracket := None;
       upd_playstyle := upd_playstyle (updated (evolvePlaystyle P E initial));
       upd_learningGoals := upd_learningGoals (updated (evolveGoals P E initial)) |}.
Proof.
  unfold evolveProfile.
  rewrite evolveGoals_updated, evolvePlaystyle_updated,
    evolveSkillLevel_updated, evolveRoles_updated, evolveHeroes_updated.
  cbn. by rewrite !overlay_None.
Qed.

Lemma evolveProfile_changes :
  changes (evolveProfile P E)
  = changes (evolveHeroes P E initial) ++ changes (evolveRoles P E initial)
    ++ changes (evolveSkillLevel P E initial)
    ++ changes (evolvePlaystyle P E initial)
    ++ changes (evolveGoals P E initial).
Proof.
  unfold evolveProfile.
  rewrite evolveGoals_changes, evolvePlaystyle_changes,
    evolveSkillLevel_changes, evolveRoles_changes.
  by rewrite <- !app_assoc.
Qed.

End EvolutionBlocks.

(** ** Storage: a written field replaces the stored one, the others stay *)

Section StorageFacts.
Import JS.

Variables (now : string) (row : UserProfile) (u : PartialUserProfile).

Lemma updateProfile_heroes :
  preferredHeroes (Routes.updateProfile now row u)
  = nullish (upd_preferredHeroes u) (preferredHeroes row).
Proof. by destruct u as [[] [] [] [] [] []]. Qed.

Lemma updateProfile_roles :
  preferredRoles (Routes.updateProfile now row u)
  = nullish (upd_preferredRoles u) (preferredRoles row).
Proof. by destruct u as [[] [] [] [] [] []]. Qed.

Lemma updateProfile_skillLevel :
  skillLevel (Routes.updateProfile now row u)
  = nullish (upd_skillLevel u) (skillLevel row).
Proof. by destruct u as [[] [] [] [] [] []]. Qed.

Lemma updateProfile_playstyle :
  playstyle (Routes.updateProfile now row u)
  = nullish (upd_playstyle u) (playstyle row).
Proof. by destruct u as [[] [] [] [] [] []]. Qed.

Lemma updateProfile_goals :
  learningGoals (Routes.updateProfile now row u)
  = nullish (upd_learningGoals u) (learningGoals row).
Proof. by destruct u as [[] [] [] [] [] []]. Qed.

End StorageFacts.

(** ** Evolution is additive *)

Section Additive.
Import JS Memory.

Context {rt : Runtime}.

(** The list written by the heroes block extends the stored one. *)
Lemma evolveHeroes_extends P E st l :
  upd_preferredHeroes (updated (evolveHeroes P E st)) = Some l ->
  upd_preferredHeroes (updated st) = Some l
  \/ exists hs, heroes E = Some hs
       /\ l = preferredHeroes P ++ newHeroes (preferredHeroes P) hs.
Proof.
  unfold evolveHeroes, record. repeat case_match; cbn; eauto.
  intros [= <-]. eauto.
Qed.

Lemma evolveRoles_extends P E st l :
  upd_preferredRoles (updated (evolveRoles P E st)) = Some l ->
  upd_preferredRoles (updated st) = Some l
  \/ exists rs, roles E = Some rs
       /\ l = preferredRoles P ++ newLowered (preferredRoles P) rs.
Proof.
  unfold evolveRoles, record. repeat case_match; cbn; eauto.
  intros [= <-]. eauto.
Qed.

Lemma evolveGoals_extends P E st l :
  upd_learningGoals (updated (evolveGoals P E st)) = Some l ->
  upd_learningGoals (updated st) = Some l
  \/ exists gs, ex_learningGoals E = Some gs
       /\ l = learningGoals P ++ newLowered (learningGoals P) gs.
Proof.
  unfold evolveGoals, record. repeat case_match; cbn; eauto.
  intros [= <-]. eauto.
Qed.

(** What [evolveProfile] writes in each list field. *)
Lemma evolveProfile_heroes P E l :
  upd_preferredHeroes (updated (evolveProfile P E)) = Some l ->
  exists hs, heroes E = Some hs
    /\ l = preferredHeroes P ++ newHeroes (preferredHeroes P) hs.
Proof.
  rewrite evolveProfile_updated. cbn.
  intros [H|H]%evolveHeroes_extends; [discriminate | done].
Qed.

Lemma evolveProfile_roles P E l :
  upd_preferredRoles (updated (evolveProfile P E)) = Some l ->
  exists rs, roles E = Some rs
    /\ l = preferredRoles P ++ newLowered (preferredRoles P) rs.
Proof.
  rewrite evolveProfile_updated. cbn.
  intros [H|H]%evolveRoles_extends; [discriminate | done].
Qed.

Lemma evolveProfile_goals P E l :
  upd_learningGoals (updated (evolveProfile P E)) = Some l ->
  exists gs, ex_learningGoals E = Some gs
    /\ l = learningGoals P ++ newLowered (learningGoals P) gs.
Proof.
  rewrite evolveProfile_updated. cbn.
  intros [H|H]%evolveGoals_extends; [discriminate | done].
Qed.

(** C1.  For every profile [P] and extracted record [E], [evolveProfile]
    removes no element: every element of [P.preferredHeroes],
    [P.preferredRoles] and [P.learningGoals] occurs in the corresponding
    list of the result, which is the [updated] field when it is present and
    the old list when it is absent; the same holds of the profile read back
    after [updateProfile] has stored the result. *)
Theorem evolveProfile_never_removes (P : UserProfile) (E : ExtractedPreferences) :
  let u := updated (evolveProfile P E) in
  (preferredHeroes P ⊆ nullish (upd_preferredHeroes u) (preferredHeroes P)
   /\ preferredRoles P ⊆ nullish (upd_preferredRoles u) (preferredRoles P)
   /\ learningGoals P ⊆ nullish (upd_learningGoals u) (learningGoals P))
  /\ forall now : string,
       let P' := Routes.updateProfile now P u in
       preferredHeroes P ⊆ preferredHeroes P'
       /\ preferredRoles P ⊆ preferredRoles P'
       /\ learningGoals P ⊆ learningGoals P'.
Proof.
  intros u.
  assert (Hh : preferredHeroes P ⊆ nullish (upd_preferredHeroes u) (preferredHeroes P)).
  { destruct (upd_preferredHeroes u) as [l|] eqn:Hl; cbn; [|done].
    apply evolveProfile_heroes in Hl as (hs & _ & ->).
    intros x Hx. apply elem_of_app. by left. }
  assert (Hr : preferredRoles P ⊆ nullish (upd_preferredRoles u) (preferredRoles P)).
  { destruct (upd_preferredRoles u) as [l|] eqn:Hl; cbn; [|done].
    apply evolveProfile_roles in Hl as (rs & _ & ->).
    intros x Hx. apply elem_of_app. by left. }
  assert (Hg : learningGoals P ⊆ nullish (upd_learningGoals u) (learningGoals P)).
  { destruct (upd_learningGoals u) as [l|] eqn:Hl; cbn; [|done].
    apply evolveProfile_goals in Hl as (gs & _ & ->).
    intros x Hx. apply elem_of_app. by left. }
  split; [done|]. intros now P'. unfold P'.
  by rewrite updateProfile_heroes, updateProfile_roles, updateProfile_goals.
Qed.

End Additive.

(** ** Evolution is idempotent *)

Section Idempotent.
Import JS Memory.

Context {rt : Runtime}.



Variables (P Q : UserProfile) (E : ExtractedPreferences).

Ltac fields :=
  cbn [nullish updated changes record initial emptyPartial
       upd_preferredHeroes upd_preferredRoles upd_skillLevel upd_mmrBracket
       upd_playstyle upd_learningGoals set_preferredHeroes set_preferredRoles
       set_skillLevel set_playstyle set_learningGoals].






End Idempotent.

Section IdempotentTheorem.
Import JS Memory.




End IdempotentTheorem.

(** ** The playstyle policy *)

Section Playstyle.
Import JS Memory.

Context {rt : Runtime}.

(** The entries of a change list that concern one field. *)
Lemma heroes_entries P E (f : string) :
  f <> "preferredHeroes" ->
  filter (fun c => field c = f) (changes (evolveHeroes P E initial)) = [].
Proof.
  intros Hf. unfold evolveHeroes, record. repeat case_match; try done.
  cbn [changes initial app]. by rewrite filter_cons_False.
Qed.

Lemma roles_entries P E (f : string) :
  f <> "preferredRoles" ->
  filter (fun c => field c = f) (changes (evolveRoles P E initial)) = [].
Proof.
  intros Hf. unfold evolveRoles, record. repeat case_match; try done.
  cbn [changes initial app]. by rewrite filter_cons_False.
Qed.

Lemma skillLevel_entries P E (f : string) :
  f <> "skillLevel" ->
  filter (fun c => field c = f) (changes (evolveSkillLevel P E initial)) = [].
Proof.
  intros Hf. unfold evolveSkillLevel, record. repeat case_match; try done.
  cbn [changes initial app]. by rewrite filter_cons_False.
Qed.

Lemma goals_entries P E (f : string) :
  f <> "learningGoals" ->
  filter (fun c => field c = f) (changes (evolveGoals P E initial)) = [].
Proof.
  intros Hf. unfold evolveGoals, record. repeat case_match; try done.
  cbn [changes initial app]. by rewrite filter_cons_False.
Qed.

(** An extracted playstyle that is the empty string is no playstyle: the
    test [if (extracted.playstyle)] skips the block. *)
Lemma evolvePlaystyle_empty P E st :
  ex_playstyle E = Some "" -> evolvePlaystyle P E st = st.
Proof. unfold evolvePlaystyle. by intros ->. Qed.

Lemma playstyle_entries P E :
  filter (fun c => field c = "playstyle") (changes (evolveProfile P E))
  = changes (evolvePlaystyle P E initial).
Proof.
  rewrite evolveProfile_changes, !filter_app.
  rewrite heroes_entries, roles_entries, skillLevel_entries, goals_entries
    by done.
  rewrite app_nil_r. cbn [app].
  unfold evolvePlaystyle, record. repeat case_match; try done;
    cbn [changes initial app]; by rewrite filter_cons_True.
Qed.

End Playstyle.

Section PlaystylePolicy.
Import JS Memory.

(** C9.  The playstyle policy of [evolveProfile], for a profile [P] and an
    extracted playstyle [s] (a non-empty string, as the engine requires):
    (i) if [P] has no playstyle ([null] or empty), the result sets playstyle
    to [s] with one [replace] change; (ii) if [s] is a case-insensitive
    substring of [P.playstyle], that is, the lower-cased [s] occurs in the
    lower-cased [P.playstyle], nothing is written and there is no change;
    (iii) otherwise the result sets playstyle to [P.playstyle + ", " + s]
    with exactly one [merge] change.  The changes counted are those of the
    playstyle field; they are the whole change list when the extracted
    record holds the playstyle only.  This holds whatever [toLowerCase] the
    run time provides. *)
Theorem evolveProfile_playstyle_policy {rt : Runtime}
    (P : UserProfile) (E : ExtractedPreferences) (s : string) :
  ex_playstyle E = Some s ->
  truthy s = true ->
  let r := evolveProfile P E in
  let entries := filter (fun c => field c = "playstyle") (changes r) in
  let fresh :=
    upd_playstyle (updated r) = Some (Some s)
    /\ entries = [{| field := "playstyle";
                     oldValue := of_nullable (playstyle P);
                     newValue := VStr s;
                     action := replace |}] in
  match playstyle P with
  | None => fresh
  | Some old =>
      if truthy old then
        if includes (toLowerCase old) (toLowerCase s) then
          upd_playstyle (updated r) = None /\ entries = []
        else
          upd_playstyle (updated r) = Some (Some (old +:+ ", " +:+ s))
          /\ entries = [{| field := "playstyle";
                           oldValue := VStr old;
                           newValue := VStr (old +:+ ", " +:+ s);
                           action := merge |}]
      else fresh
  end
  /\ changes (evolveProfile P (Samples.onlyPlaystyle s)) = entries.
Proof.
  intros HE Hs r entries. unfold entries, r.
  rewrite playstyle_entries, evolveProfile_updated.
  cbn [upd_playstyle]. split.
  - unfold evolvePlaystyle, record. rewrite HE, Hs.
    destruct (playstyle P) as [old|]; [|done].
    destruct (truthy old); [|done].
    by destruct (includes (toLowerCase old) (toLowerCase s)).
  - rewrite evolveProfile_changes.
    unfold evolveHeroes, evolveRoles, evolveSkillLevel, evolveGoals,
      evolvePlaystyle.
    cbn [Samples.onlyPlaystyle heroes roles ex_skillLevel ex_playstyle
         ex_learningGoals changes initial app].
    by rewrite HE, app_nil_r.
Qed.

(** The two examples of the specification: ["aggressive"] against
    ["Aggressive"] is a no-op, ["farming focused"] against ["aggressive"]
    is merged. *)
Lemma evolveProfile_playstyle_policy_witness :
  (let r := evolveProfile (Samples.profile [] [] (Some "aggressive"))
              (Samples.onlyPlaystyle "Aggressive") in
   upd_playstyle (updated r) = None /\ changes r = [])
  /\ (let r := evolveProfile (Samples.profile [] [] (Some "farming focused"))
                 (Samples.onlyPlaystyle "aggressive") in
      upd_playstyle (updated r) = Some (Some "farming focused, aggressive")
      /\ changes r
         = [{| field := "playstyle";
               oldValue := VStr "farming focused";
               newValue := VStr "farming focused, aggressive";
               action := merge |}]).
Proof.
  split.
  - destruct (evolveProfile_playstyle_policy
                (Samples.profile [] [] (Some "aggressive"))
                (Samples.onlyPlaystyle "Aggressive") "Aggressive"
                eq_refl eq_refl) as [[H1 H2] H3].
    split; [exact H1 | reflexivity].
  - destruct (evolveProfile_playstyle_policy
                (Samples.profile [] [] (Some "farming focused"))
                (Samples.onlyPlaystyle "aggressive") "aggressive"
                eq_refl eq_refl) as [[H1 H2] H3].
    split; [exact H1 | reflexivity].
Defined.

End PlaystylePolicy.

(** ** Duplicates *)

Section Duplicates.
Import JS Memory.

(** The filter of each block compares an extracted entry with the stored
    entries only, so the appended entries are new with respect to the stored
    list; they are distinct from each other when the extracted list has no
    duplicates. *)
Lemma newHeroes_NoDup (cur hs : list string) :
  NoDup cur -> NoDup hs -> NoDup (cur ++ newHeroes cur hs).
Proof.
  intros Hcur Hhs. apply NoDup_app. split; [done|]. split.
  - intros x Hx [Hn _]%list_elem_of_filter. by apply not_has_Set_of in Hn.
  - by apply NoDup_filter.
Qed.

Lemma newLowered_NoDup {rt : Runtime} (cur xs : list string) :
  NoDup (toLowerCase <$> cur) -> NoDup (toLowerCase <$> xs) ->
  NoDup (toLowerCase <$> (cur ++ newLowered cur xs)).
Proof.
  intros Hcur Hxs. rewrite fmap_app. apply NoDup_app. split; [done|]. split.
  - intros y Hy (x & -> & [Hn _]%list_elem_of_filter)%list_elem_of_fmap.
    by apply not_has_Set_of in Hn.
  - eapply sublist_NoDup; [exact Hxs|].
    apply fmap_sublist, sublist_filter.
Qed.

(** C4.  The no-duplicates invariant is not preserved: on a profile without
    heroes or roles, the extracted heroes [["Axe", "Axe"]] are stored twice,
    and the extracted roles [["carry", "Carry"]] are stored although they
    are equal up to case. *)
Theorem evolveProfile_stores_duplicates :
  let P := Samples.profile [] [] None in
  (NoDup (preferredHeroes P) /\ NoDup (toLowerCase <$> preferredRoles P)
   /\ NoDup (toLowerCase <$> learningGoals P))
  /\ upd_preferredHeroes
       (updated (evolveProfile P (Samples.onlyHeroes ["Axe"; "Axe"])))
     = Some ["Axe"; "Axe"]
  /\ ~ NoDup ["Axe"; "Axe"]
  /\ upd_preferredRoles
       (updated (evolveProfile P (Samples.onlyRoles ["carry"; "Carry"])))
     = Some ["carry"; "Carry"]
  /\ ~ NoDup (toLowerCase <$> ["carry"; "Carry"]).
Proof.
  cbn zeta. split; [|split; [|split; [|split]]].
  - cbn. repeat split; constructor.
  - by vm_compute.
  - intros [Hn _]%NoDup_cons. apply Hn. constructor.
  - by vm_compute.
  - change (toLowerCase <$> ["carry"; "Carry"]) with ["carry"; "carry"].
    intros [Hn _]%NoDup_cons. apply Hn. constructor.
Qed.

End Duplicates.

(** ** The Anthropic request *)

Section AnthropicRequest.
Import JS Llm.

(** The loop of [chatAnthropic], from any state: the conversation messages
    are appended in order, and [systemPrompt] is overwritten by every system
    message, so that the last one stays. *)
Lemma anthropicSplit_from (msgs : list ChatMessage) sp conv :
  fold_left anthropicStep msgs (sp, conv)
  = (match last (content <$> systemOf msgs) with
     | Some c => Some c
     | None => sp
     end,
     conv ++ conversationOf msgs).
Proof.
  unfold systemOf, conversationOf.
  revert sp conv. induction msgs as [|[r c] msgs IH]; intros sp conv.
  - cbn. by rewrite app_nil_r.
  - cbn [fold_left]. unfold anthropicStep at 2. cbn [role content fst snd].
    destruct r; rewrite IH.
    + rewrite filter_cons_True by done. rewrite filter_cons_False by naive_solver.
      rewrite fmap_cons, last_cons. by destruct (last _).
    + rewrite filter_cons_False by done. rewrite filter_cons_True by done.
      by rewrite <- app_assoc.
    + rewrite filter_cons_False by done. rewrite filter_cons_True by done.
      by rewrite <- app_assoc.
Qed.

Lemma anthropicSplit_spec (msgs : list ChatMessage) :
  anthropicSplit msgs = (last (content <$> systemOf msgs), conversationOf msgs).
Proof.
  unfold anthropicSplit. rewrite anthropicSplit_from. by destruct (last _).
Qed.

Lemma anthropicBody_spec self msgs t m :
  anthropicBody self msgs t m
  = {| an_model := svc_model self;
       an_messages := conversationOf msgs;
       an_max_tokens := m;
       an_temperature := t;
       an_system :=
         match last (content <$> systemOf msgs) with
         | Some c => if truthy c then Some c else None
         | None => None
         end |}.
Proof.
  unfold anthropicBody. rewrite anthropicSplit_spec. f_equal.
  destruct (last _) as [c|]; [|done]. cbn. by destruct (truthy c).
Qed.

(** What [chatAnthropic] hands to [fetch] is the request built from its
    input, and the outcome is read from the answer to it. *)
Lemma chatAnthropic_sends self msgs t m
    (sent : Request AnthropicBody -> Prop) :
  sent (anthropicRequest self msgs t m) ->
  Wire.sends (fun fetch => chatAnthropic self fetch msgs t m) sent.
Proof.
  intros Hsent. split.
  - exists (fun _ => {| ok := false; status := 0; text := "";
                        json := {| an_content := None; an_usage := None |} |}),
           (fun _ => {| ok := true; status := 200; text := "";
                        json := {| an_content := None; an_usage := None |} |}).
    unfold chatAnthropic. cbn. intros Heq. vm_compute in Heq. discriminate.
  - intros fetch fetch' Hagree. unfold chatAnthropic.
    by rewrite (Hagree _ Hsent).
Qed.

(** With the provider [anthropic], [chat] is [chatAnthropic] on the Anthropic
    endpoint, with the defaults of the options filled in. *)
Lemma chat_anthropic self net msgs options :
  provider (config self) = anthropic ->
  chat self net msgs options
  = chatAnthropic self (fetchAnthropic net) msgs
      (nullish (temperature options) (7 # 10)%Q)
      (nullish (maxTokens options) 1024%nat).
Proof. unfold chat. by intros ->. Qed.

(** C5.  Anthropic request shaping.  [chatAnthropic] sends one request, and
    for the input [[{system,"X"},{user,"Y"}]] its payload has [system = "X"]
    and [messages = [{user,"Y"}]] (and likewise for any non-empty system
    text and any user text); for every input, no system-role message is in
    the [messages] array of the payload.  This is the request of [chat] when
    the provider is [anthropic]. *)
Theorem anthropic_request_shaping (self : LLMService) (t : Q) (m : nat) :
  let path (msgs : list ChatMessage) :=
    fun fetch => chatAnthropic self fetch msgs t m in
  Wire.sends
    (path [{| role := system; content := "X" |};
           {| role := user; content := "Y" |}])
    (fun req =>
       an_system (body req) = Some "X"
       /\ an_messages (body req) = [{| role := user; content := "Y" |}])
  /\ (forall X Y : string,
        Wire.sends
          (path [{| role := system; content := X |};
                 {| role := user; content := Y |}])
          (fun req =>
             an_system (body req) = (if truthy X then Some X else None)
             /\ an_messages (body req) = [{| role := user; content := Y |}]))
  /\ (forall msgs : list ChatMessage,
        Wire.sends (path msgs)
          (fun req =>
             Forall (fun msg => role msg <> system) (an_messages (body req))))
  /\ (provider (config self) = anthropic ->
      forall net msgs options,
        chat self net msgs options
        = chatAnthropic self (fetchAnthropic net) msgs
            (nullish (temperature options) (7 # 10)%Q)
            (nullish (maxTokens options) 1024%nat)).
Proof.
  intros path. unfold path. split; [|split; [|split]].
  - by apply chatAnthropic_sends.
  - intros X Y. apply chatAnthropic_sends. cbn. by destruct (truthy X).
  - intros msgs. apply chatAnthropic_sends.
    cbn [anthropicRequest body]. rewrite anthropicBody_spec.
    cbn [an_messages]. apply Forall_forall.
    by intros x [Hx _]%list_elem_of_filter.
  - intros Hp net msgs options. by apply chat_anthropic.
Qed.

(** The gateway of the samples is an Anthropic one: [chat] on the two
    messages of the specification. *)
Lemma anthropic_request_shaping_witness :
  chat (Samples.service anthropic) (Samples.network (Some "gg"))
    [{| role := system; content := "X" |};
     {| role := user; content := "Y" |}] Samples.noOptions
  = chatAnthropic (Samples.service anthropic)
      (fetchAnthropic (Samples.network (Some "gg")))
      [{| role := system; content := "X" |};
       {| role := user; content := "Y" |}]
      (7 # 10)%Q 1024%nat.
Proof.
  exact (proj2 (proj2 (proj2
           (anthropic_request_shaping (Samples.service anthropic)
              (7 # 10)%Q 1024%nat))) eq_refl
           (Samples.network (Some "gg")) _ Samples.noOptions).
Defined.

(** C10, as stated, fails: with the system messages ["A"] and [""] the
    payload has no [system] field at all, neither [""] nor ["A"]. *)
Lemma anthropic_last_system_counterexample :
  ~ (forall (self : LLMService) (msgs : list ChatMessage) (t : Q) (m : nat)
            (c : string),
       (1 < length (systemOf msgs))%nat ->
       last (content <$> systemOf msgs) = Some c ->
       an_system (body (anthropicRequest self msgs t m)) = Some c).
Proof.
  intros H.
  specialize (H (Samples.service anthropic)
                [{| role := system; content := "A" |};
                 {| role := system; content := "" |};
                 {| role := user; content := "Y" |}]
                (7 # 10)%Q 1024%nat "").
  discriminate (H (le_n 2) eq_refl).
Qed.

(** C10, amended.  For every input, the request that [chatAnthropic] sends
    has the system-role messages at any position removed from its
    [messages] array, the others being kept in order; the [system] field of
    the payload is the content of the last system message of the input when
    that content is not empty, the earlier ones being discarded, and the
    field is left out when there is no system message or the last one is
    empty.  With the provider [anthropic] this is all that [chat] sends: the
    OpenAI-compatible endpoint is not consulted. *)
Theorem anthropic_system_extraction
    (self : LLMService) (msgs : list ChatMessage) (t : Q) (m : nat) :
  let shaped (req : Request AnthropicBody) :=
    an_messages (body req) = conversationOf msgs
    /\ an_system (body req)
       = match last (content <$> systemOf msgs) with
         | Some c => if truthy c then Some c else None
         | None => None
         end in
  Wire.sends (fun fetch => chatAnthropic self fetch msgs t m) shaped
  /\ (provider (config self) = anthropic ->
      forall options,
        Wire.reaches (fun net => chat self net msgs options)
          (fun _ => False) shaped).
Proof.
  intros shaped.
  assert (Hshaped : forall t' m', shaped (anthropicRequest self msgs t' m')).
  { intros t' m'. unfold shaped. cbn [anthropicRequest body].
    by rewrite anthropicBody_spec. }
  split.
  - by apply chatAnthropic_sends.
  - intros Hp options net net' _ Hagree. rewrite !chat_anthropic by done.
    by apply (chatAnthropic_sends self msgs _ _ shaped).
Qed.

(** On the gateway of the samples, with the two system messages ["A"] and
    [""], the request has no [system] field: a network that answers
    otherwise to a request with a [system] field, or on the
    OpenAI-compatible endpoint, gives the same outcome. *)
Lemma anthropic_system_extraction_witness :
  chat (Samples.service anthropic) (Samples.network (Some "gg"))
    [{| role := system; content := "A" |};
     {| role := system; content := "" |};
     {| role := user; content := "Y" |}] Samples.noOptions
  = chat (Samples.service anthropic) Samples.systemAware
      [{| role := system; content := "A" |};
       {| role := system; content := "" |};
       {| role := user; content := "Y" |}] Samples.noOptions.
Proof.
  apply (proj2 (anthropic_system_extraction (Samples.service anthropic)
                  [{| role := system; content := "A" |};
                   {| role := system; content := "" |};
                   {| role := user; content := "Y" |}]
                  (7 # 10)%Q 1024%nat) eq_refl Samples.noOptions
           (Samples.network (Some "gg")) Samples.systemAware).
  - by intros req [].
  - intros req [_ Hsys]. cbn in Hsys. cbn. by rewrite Hsys.
Defined.

End AnthropicRequest.

(** ** Responses without content *)

Section EmptyCompletion.
Import JS Llm.

(** What each path returns for a 2xx response: the error when the parsed
    completion is the empty string, the completion itself otherwise. *)
Lemma chatOpenAI_ok self fetch msgs t m :
  let resp := fetch (openAIRequest self msgs t m) in
  ok resp = true ->
  (openAIContent (json resp) = ""
   /\ chatOpenAI self fetch msgs t m = inl EmptyCompletionOpenAI)
  \/ (openAIContent (json resp) <> ""
      /\ exists u, chatOpenAI self fetch msgs t m
                   = inr {| resp_content := openAIContent (json resp);
                            usage := u |}).
Proof.
  intros resp Hok. unfold chatOpenAI. fold resp. rewrite Hok. cbn [negb].
  destruct (truthy (openAIContent (json resp))) eqn:Ht; cbn [negb].
  - right. split; [by apply truthy_spec | eauto].
  - left. split; [|done].
    destruct (openAIContent (json resp)); [done | discriminate].
Qed.

Lemma chatAnthropic_ok self fetch msgs t m :
  let resp := fetch (anthropicRequest self msgs t m) in
  ok resp = true ->
  (anthropicContent (json resp) = ""
   /\ chatAnthropic self fetch msgs t m = inl EmptyCompletionAnthropic)
  \/ (anthropicContent (json resp) <> ""
      /\ exists u, chatAnthropic self fetch msgs t m
                   = inr {| resp_content := anthropicContent (json resp);
                            usage := u |}).
Proof.
  intros resp Hok. unfold chatAnthropic. fold resp. rewrite Hok. cbn [negb].
  destruct (truthy (anthropicContent (json resp))) eqn:Ht; cbn [negb].
  - right. split; [by apply truthy_spec | eauto].
  - left. split; [|done].
    destruct (anthropicContent (json resp)); [done | discriminate].
Qed.

(** C3, as stated, fails on both paths: a completion made of white space
    only is returned as the answer. *)
Lemma whitespace_completion_counterexample :
  ~ (forall self fetch msgs t m,
       let resp := fetch (openAIRequest self msgs t m) in
       ok resp = true ->
       trim (openAIContent (json resp)) = "" ->
       chatOpenAI self fetch msgs t m = inl EmptyCompletionOpenAI)
  /\ ~ (forall self fetch msgs t m,
          let resp := fetch (anthropicRequest self msgs t m) in
          ok resp = true ->
          trim (anthropicContent (json resp)) = "" ->
          chatAnthropic self fetch msgs t m = inl EmptyCompletionAnthropic).
Proof.
  split; intros H.
  - discriminate (H (Samples.service openai)
                    (fetchOpenAI (Samples.network (Some "  ")))
                    [{| role := user; content := "hi" |}] (7 # 10)%Q 1024%nat
                    eq_refl eq_refl).
  - discriminate (H (Samples.service anthropic)
                    (fetchAnthropic (Samples.network (Some "  ")))
                    [{| role := user; content := "hi" |}] (7 # 10)%Q 1024%nat
                    eq_refl eq_refl).
Qed.

(** C3, amended.  For every 2xx provider response, on the OpenAI-compatible
    path and on the Anthropic path alike, [chat] fails with the
    [EmptyCompletion] error exactly when the parsed completion string is
    empty (or missing); every other completion, one made of white space
    included, is returned unchanged as the answer. *)
Theorem chat_empty_completion
    (self : LLMService) (net : Network) (msgs : list ChatMessage)
    (opts : LLMOptions) :
  let t := nullish (temperature opts) (7 # 10)%Q in
  let m := nullish (maxTokens opts) 1024%nat in
  match provider (config self) with
  | anthropic =>
      let resp := fetchAnthropic net (anthropicRequest self msgs t m) in
      ok resp = true ->
      (chat self net msgs opts = inl EmptyCompletionAnthropic
       <-> anthropicContent (json resp) = "")
      /\ (anthropicContent (json resp) <> "" ->
          exists u, chat self net msgs opts
                    = inr {| resp_content := anthropicContent (json resp);
                             usage := u |})
  | _ =>
      let resp := fetchOpenAI net (openAIRequest self msgs t m) in
      ok resp = true ->
      (chat self net msgs opts = inl EmptyCompletionOpenAI
       <-> openAIContent (json resp) = "")
      /\ (openAIContent (json resp) <> "" ->
          exists u, chat self net msgs opts
                    = inr {| resp_content := openAIContent (json resp);
                             usage := u |})
  end.
Proof.
  intros t m. unfold chat. fold t m.
  destruct (provider (config self)); intros Hok.
  - destruct (chatOpenAI_ok self (fetchOpenAI net) msgs t m Hok)
      as [[He Hr]|[Hne [u Hr]]]; rewrite Hr.
    + naive_solver.
    + split; [split; [discriminate | done] | eauto].
  - destruct (chatAnthropic_ok self (fetchAnthropic net) msgs t m Hok)
      as [[He Hr]|[Hne [u Hr]]]; rewrite Hr.
    + naive_solver.
    + split; [split; [discriminate | done] | eauto].
  - destruct (chatOpenAI_ok self (fetchOpenAI net) msgs t m Hok)
      as [[He Hr]|[Hne [u Hr]]]; rewrite Hr.
    + naive_solver.
    + split; [split; [discriminate | done] | eauto].
Qed.

(** An empty completion is refused on both paths, a blank one is returned. *)
Lemma chat_empty_completion_witness :
  chat (Samples.service openrouter) (Samples.network (Some ""))
       [{| role := user; content := "hi" |}] Samples.noOptions
  = inl EmptyCompletionOpenAI
  /\ chat (Samples.service anthropic) (Samples.network None)
          [{| role := user; content := "hi" |}] Samples.noOptions
     = inl EmptyCompletionAnthropic
  /\ exists u,
       chat (Samples.service anthropic) (Samples.network (Some " "))
            [{| role := user; content := "hi" |}] Samples.noOptions
       = inr {| resp_content := " "; usage := u |}.
Proof.
  pose proof (chat_empty_completion (Samples.service openrouter)
                (Samples.network (Some ""))
                [{| role := user; content := "hi" |}] Samples.noOptions) as H1.
  pose proof (chat_empty_completion (Samples.service anthropic)
                (Samples.network None)
                [{| role := user; content := "hi" |}] Samples.noOptions) as H2.
  pose proof (chat_empty_completion (Samples.service anthropic)
                (Samples.network (Some " "))
                [{| role := user; content := "hi" |}] Samples.noOptions) as H3.
  cbv zeta in H1, H2, H3.
  split; [|split].
  - apply (H1 eq_refl). reflexivity.
  - apply (H2 eq_refl). reflexivity.
  - apply (H3 eq_refl). discriminate.
Defined.

End EmptyCompletion.

(** ** Provider selection *)

Section ProviderSelection.
Import JS Llm.

Lemma bool_decide_Some_eqb (name x : string) :
  bool_decide (Some name = Some x) = String.eqb name x.
Proof.
  destruct (String.eqb_spec name x) as [->|Hne].
  - by apply bool_decide_eq_true_2.
  - apply bool_decide_eq_false_2. by intros [= ?].
Qed.

(** [createLLMService] follows the selection policy of the specification. *)
Lemma createLLMService_selected (env : Env) :
  createLLMService env = Spec.selected env.
Proof.
  destruct env as [a o r p mdl].
  unfold createLLMService, Spec.selected, Spec.selectProvider, preferred,
    Spec.byPriority, Spec.keyPresent, Spec.keyOf.
  cbn [ANTHROPIC_API_KEY OPENAI_API_KEY OPENROUTER_API_KEY LLM_PROVIDER
       LLM_MODEL].
  destruct p as [name|].
  - rewrite !bool_decide_Some_eqb. cbn [mbind option_bind].
    unfold Spec.providerOfName.
    destruct (String.eqb_spec name "anthropic") as [->|_];
      [|destruct (String.eqb_spec name "openai") as [->|_];
        [|destruct (String.eqb_spec name "openrouter") as [->|_]]];
      destruct a as [ka|]; try destruct (truthy ka) eqn:Ha;
      destruct o as [ko|]; try destruct (truthy ko) eqn:Ho;
      destruct r as [kr|]; try destruct (truthy kr) eqn:Hr;
      cbn; rewrite ?Ha, ?Ho, ?Hr; cbn; rewrite ?Ha, ?Ho, ?Hr; done.
  - rewrite !bool_decide_eq_false_2 by done. cbn [mbind option_bind].
    destruct a as [ka|]; try destruct (truthy ka) eqn:Ha;
      destruct o as [ko|]; try destruct (truthy ko) eqn:Ho;
      destruct r as [kr|]; try destruct (truthy kr) eqn:Hr;
      cbn; rewrite ?Ha, ?Ho, ?Hr; cbn; rewrite ?Ha, ?Ho, ?Hr; done.
Qed.

(** C6.  Provider auto-selection.  For every environment,
    [createLLMService] selects the explicitly preferred provider when its API
    key is present, otherwise the first of Anthropic, OpenAI, OpenRouter whose
    key is present, and fails with [NoProviderConfigured] when no key is
    present; a key is present when the variable holds a non-empty string.
    With only [OPENROUTER_API_KEY] set, OpenRouter and its default model are
    selected; with the Anthropic and OpenAI keys set and a preference for
    OpenAI, OpenAI is selected. *)
Theorem provider_selection :
  (forall env : Env, createLLMService env = Spec.selected env)
  /\ (forall env : Env,
        Spec.keyPresent env anthropic = false ->
        Spec.keyPresent env openai = false ->
        Spec.keyPresent env openrouter = false ->
        createLLMService env = inl NoProviderConfigured)
  /\ (forall (k : string) (pref : option string),
        truthy k = true ->
        exists svc,
          createLLMService
            {| ANTHROPIC_API_KEY := None; OPENAI_API_KEY := None;
               OPENROUTER_API_KEY := Some k; LLM_PROVIDER := pref;
               LLM_MODEL := None |} = inr svc
          /\ getProvider svc = openrouter
          /\ getModel svc = DEFAULT_MODELS openrouter
          /\ apiKey (config svc) = k)
  /\ (forall (ka ko : string) (kr mdl : option string),
        truthy ka = true -> truthy ko = true ->
        exists svc,
          createLLMService
            {| ANTHROPIC_API_KEY := Some ka; OPENAI_API_KEY := Some ko;
               OPENROUTER_API_KEY := kr; LLM_PROVIDER := Some "openai";
               LLM_MODEL := mdl |} = inr svc
          /\ getProvider svc = openai
          /\ apiKey (config svc) = ko).
Proof.
  split; [exact createLLMService_selected|]. split; [|split].
  - intros env Ha Ho Hr. rewrite createLLMService_selected.
    unfold Spec.selected, Spec.selectProvider, Spec.byPriority.
    cbn [List.find]. rewrite Ha, Ho, Hr.
    destruct (LLM_PROVIDER env ≫= Spec.providerOfName) as [[]|];
      by rewrite ?Ha, ?Ho, ?Hr.
  - intros k pref Hk. rewrite createLLMService_selected.
    unfold Spec.selected, Spec.selectProvider, Spec.byPriority,
      Spec.keyPresent.
    cbn [LLM_PROVIDER].
    destruct (pref ≫= Spec.providerOfName) as [[]|]; cbn; rewrite Hk;
      eexists; repeat split; reflexivity.
  - intros ka ko kr mdl Ha Ho. rewrite createLLMService_selected.
    unfold Spec.selected, Spec.selectProvider, Spec.keyPresent. cbn.
    rewrite Ho. eexists; repeat split; reflexivity.
Qed.

Lemma provider_selection_witness :
  (exists svc,
     createLLMService
       {| ANTHROPIC_API_KEY := None; OPENAI_API_KEY := None;
          OPENROUTER_API_KEY := Some "sk-or-1"; LLM_PROVIDER := None;
          LLM_MODEL := None |} = inr svc
     /\ getProvider svc = openrouter
     /\ getModel svc = "openai/gpt-4o-mini"
     /\ apiKey (config svc) = "sk-or-1")
  /\ (exists svc,
        createLLMService
          {| ANTHROPIC_API_KEY := Some "sk-ant-1"; OPENAI_API_KEY := Some "sk-2";
             OPENROUTER_API_KEY := None; LLM_PROVIDER := Some "openai";
             LLM_MODEL := None |} = inr svc
        /\ getProvider svc = openai
        /\ apiKey (config svc) = "sk-2")
  /\ createLLMService
       {| ANTHROPIC_API_KEY := None; OPENAI_API_KEY := Some "";
          OPENROUTER_API_KEY := None; LLM_PROVIDER := Some "openai";
          LLM_MODEL := None |} = inl NoProviderConfigured.
Proof.
  destruct provider_selection as (_ & Hnone & Hrouter & Hpref).
  split; [|split].
  - exact (Hrouter "sk-or-1" None eq_refl).
  - exact (Hpref "sk-ant-1" "sk-2" None None eq_refl eq_refl).
  - apply Hnone; reflexivity.
Defined.

End ProviderSelection.

(** ** The extractor *)

Section Extractor.
Import JS Profile.

(** Validation throws on [null] and on nothing else. *)
Lemma validate_throws {rt : Runtime} (parsed : json) (e : Thrown) :
  validate parsed = inl e <-> parsed = JNull /\ e = TypeError.
Proof.
  unfold validate, get, bind. destruct parsed; split; try done.
  - by intros [= <-].
  - by intros [_ ->].
  - by intros [? _].
  - by intros [? _].
  - by intros [? _].
  - by intros [? _].
  - by intros [? _].
Qed.

(** The part of the [try] block after the call of the gateway throws when
    the text is not JSON, and when it is the JSON text of [null]. *)
Lemma parseAndValidate_throws {rt : Runtime}
    JSON_parse (completion : string) (e : Thrown) :
  parseAndValidate JSON_parse completion = inl e
  <-> (JSON_parse (jsonStr (trim completion)) = None /\ e = SyntaxError)
      \/ (JSON_parse (jsonStr (trim completion)) = Some JNull /\ e = TypeError).
Proof.
  unfold parseAndValidate.
  destruct (JSON_parse (jsonStr (trim completion))) as [parsed|].
  - rewrite validate_throws. split.
    + intros [-> ->]. by right.
    + by intros [[? _]|[[= ->] ->]].
  - split.
    + intros [= <-]. by left.
    + by intros [[_ ->]|[? _]].
Qed.

(** Whatever is thrown in the [try] block, the gateway's errors included,
    is caught. *)
Lemma extractPreferences_catch {rt : Runtime}
    net JSON_parse message llm (e : Thrown) :
  extractPreferences_try net JSON_parse message llm = inl e ->
  extractPreferences net JSON_parse message llm = emptyPreferences.
Proof. unfold extractPreferences. by intros ->. Qed.

(** C7.  Extraction failure is swallowed: for every completion returned by
    the gateway, if parsing or validating it throws, [extractPreferences]
    returns the empty record (its result is always a record, never an
    exception), and [hasPreferences] of that record is [false]. *)
Theorem extraction_failure_swallowed {rt : Runtime}
    (net : Llm.Network) (JSON_parse : string -> option json)
    (message : string) (llm : Llm.LLMService)
    (response : Llm.LLMResponse) (e : Thrown) :
  Llm.chat llm net (extractionMessages message) extractionOptions
  = inr response ->
  parseAndValidate JSON_parse (Llm.resp_content response) = inl e ->
  extractPreferences net JSON_parse message llm = emptyPreferences
  /\ hasPreferences (extractPreferences net JSON_parse message llm) = false.
Proof.
  intros Hchat Hthrow.
  assert (H : extractPreferences net JSON_parse message llm = emptyPreferences).
  { apply (extractPreferences_catch _ _ _ _ e).
    unfold extractPreferences_try. by rewrite Hchat. }
  by rewrite H.
Qed.

(** A completion that is not JSON, and the completion [null]. *)
Lemma extraction_failure_swallowed_witness :
  (extractPreferences (Samples.network (Some "I cannot help with that"))
     Samples.parse "gg" (Samples.service Llm.openai) = emptyPreferences
   /\ hasPreferences
        (extractPreferences (Samples.network (Some "I cannot help with that"))
           Samples.parse "gg" (Samples.service Llm.openai)) = false)
  /\ (extractPreferences (Samples.network (Some "null"))
        Samples.parse "gg" (Samples.service Llm.anthropic) = emptyPreferences
      /\ hasPreferences
           (extractPreferences (Samples.network (Some "null"))
              Samples.parse "gg" (Samples.service Llm.anthropic)) = false).
Proof.
  split.
  - exact (extraction_failure_swallowed (rt := asciiRuntime)
             (Samples.network (Some "I cannot help with that")) Samples.parse
             "gg" (Samples.service Llm.openai)
             {| Llm.resp_content := "I cannot help with that";
                Llm.usage := None |}
             SyntaxError eq_refl eq_refl).
  - exact (extraction_failure_swallowed (rt := asciiRuntime)
             (Samples.network (Some "null")) Samples.parse
             "gg" (Samples.service Llm.anthropic)
             {| Llm.resp_content := "null"; Llm.usage := None |}
             TypeError eq_refl eq_refl).
Defined.

(** *** Role filtering *)

(** A role of the closed vocabulary, up to case. *)
Lemma filterRoles_valid {rt : Runtime} (l : list json) (r : string) :
  r ∈ filterRoles l -> array_includes validRoles (toLowerCase r) = true.
Proof.
  unfold filterRoles. intros [Hv _]%list_elem_of_filter.
  by apply Is_true_true.
Qed.

Lemma validate_roles {rt : Runtime}
    (parsed : json) (E : ExtractedPreferences) (rs : list string) :
  validate parsed = inr E -> roles E = Some rs ->
  forall r, r ∈ rs -> array_includes validRoles (toLowerCase r) = true.
Proof.
  unfold validate, get, bind.
  destruct parsed; try done; intros [= <-]; cbn [roles]; try done.
  destruct (nonEmptyArray (assoc "roles" fields)) as [l|]; [|done].
  cbn. intros [= <-] r. apply filterRoles_valid.
Qed.

Lemma extractPreferences_roles {rt : Runtime}
    net JSON_parse message llm (rs : list string) :
  roles (extractPreferences net JSON_parse message llm) = Some rs ->
  forall r, r ∈ rs -> array_includes validRoles (toLowerCase r) = true.
Proof.
  unfold extractPreferences, extractPreferences_try, parseAndValidate.
  destruct (Llm.chat _ _ _ _) as [?|response]; [done|].
  destruct (JSON_parse _) as [parsed|]; [|done].
  destruct (validate parsed) as [?|E] eqn:Hv; [done|].
  by apply validate_roles with parsed.
Qed.

End Extractor.

Section RoleFiltering.
Import JS Profile Memory.

(** C8, as stated, fails: the merge keeps the stored roles, so that a role
    outside the vocabulary that the profile already holds (here ["jungler"],
    stored through [PUT /api/profile]) is in the merged list. *)
Lemma role_filtering_counterexample :
  ~ (forall net JSON_parse message llm (P : UserProfile) (r : string),
       array_includes validRoles (toLowerCase r) = false ->
       let E := extractPreferences net JSON_parse message llm in
       (forall rs, roles E = Some rs -> r ∉ rs)
       /\ (forall l, upd_preferredRoles (updated (evolveProfile P E)) = Some l ->
                     r ∉ l)).
Proof.
  intros H.
  destruct (H (Samples.network (Some Samples.rolesText)) Samples.parse
              "I play jungler and carry" (Samples.service Llm.openai)
              (Samples.profile [] ["jungler"] None) "jungler" eq_refl)
    as [_ Hmerged].
  apply (Hmerged ["jungler"; "carry"]); [by vm_compute | constructor].
Qed.

(** C8, amended.  Role filtering: a role string that is not in the
    extractor's closed vocabulary (up to case) is dropped by the validation,
    so it is never in the validated [roles] and never among the roles that
    the evolution merge appends to [preferredRoles]; the merged list holds
    it only if the stored profile already did. *)
Theorem role_filtering {rt : Runtime}
    (net : Llm.Network) (JSON_parse : string -> option json)
    (message : string) (llm : Llm.LLMService) (r : string) :
  array_includes validRoles (toLowerCase r) = false ->
  let E := extractPreferences net JSON_parse message llm in
  (forall rs, roles E = Some rs -> r ∉ rs)
  /\ (forall (P : UserProfile) (l : list string),
        upd_preferredRoles (updated (evolveProfile P E)) = Some l ->
        exists fresh, l = preferredRoles P ++ fresh /\ r ∉ fresh).
Proof.
  intros Hr E.
  assert (Hroles : forall rs, roles E = Some rs -> r ∉ rs).
  { intros rs Hrs Hin.
    pose proof (extractPreferences_roles _ _ _ _ rs Hrs r Hin) as Hv.
    congruence. }
  split; [done|]. intros P l Hl.
  apply evolveProfile_roles in Hl as (rs & Hrs & ->).
  eexists. split; [done|].
  intros [_ Hin]%list_elem_of_filter. by apply (Hroles rs).
Qed.

(** The example of the specification: ["jungler"] is dropped, ["carry"] is
    kept and appended. *)
Lemma role_filtering_witness :
  let E := extractPreferences (Samples.network (Some Samples.rolesText))
             Samples.parse "I play jungler and carry"
             (Samples.service Llm.openai) in
  roles E = Some ["carry"]
  /\ (forall rs, roles E = Some rs -> "jungler" ∉ rs)
  /\ (forall (P : UserProfile) (l : list string),
        upd_preferredRoles (updated (evolveProfile P E)) = Some l ->
        exists fresh, l = preferredRoles P ++ fresh /\ "jungler" ∉ fresh).
Proof.
  split; [reflexivity|].
  exact (role_filtering (rt := asciiRuntime)
           (Samples.network (Some Samples.rolesText))
           Samples.parse "I play jungler and carry"
           (Samples.service Llm.openai) "jungler" eq_refl).
Defined.

End RoleFiltering.

(** * Further properties *)

(** ** The gateway: outcomes of [chat] *)

Section ChatOutcome.
Import JS Llm.

(** X1.  Whatever the provider and the response, a completion that [chat]
    returns is never the empty string. *)
Theorem chat_returns_content
    (self : LLMService) (net : Network) (msgs : list ChatMessage)
    (opts : LLMOptions) (r : LLMResponse) :
  chat self net msgs opts = inr r -> resp_content r <> "".
Proof.
  unfold chat, chatOpenAI, chatAnthropic.
  destruct (provider (config self)).
  - destruct (ok _); cbn [negb]; [|done].
    destruct (truthy _) eqn:Ht; cbn [negb]; [|done].
    intros [= <-]. by apply truthy_spec.
  - destruct (ok _); cbn [negb]; [|done].
    destruct (truthy _) eqn:Ht; cbn [negb]; [|done].
    intros [= <-]. by apply truthy_spec.
  - destruct (ok _); cbn [negb]; [|done].
    destruct (truthy _) eqn:Ht; cbn [negb]; [|done].
    intros [= <-]. by apply truthy_spec.
Qed.

Lemma chat_returns_content_witness :
  resp_content {| resp_content := "gg"; usage := None |} <> "".
Proof.
  apply (chat_returns_content (Samples.service openai)
           (Samples.network (Some "gg"))
           [{| role := user; content := "hi" |}] Samples.noOptions).
  reflexivity.
Defined.

(** X2.  A response that is not 2xx makes [chat] fail before the body is
    looked at: the error message holds the status and the raw body, and it
    is not the error of an empty completion, even when the JSON of the body
    holds no completion. *)
Theorem chat_transport_failure
    (self : LLMService) (net : Network) (msgs : list ChatMessage)
    (opts : LLMOptions) :
  let t := nullish (temperature opts) (7 # 10)%Q in
  let m := nullish (maxTokens opts) 1024%nat in
  match provider (config self) with
  | anthropic =>
      let resp := fetchAnthropic net (anthropicRequest self msgs t m) in
      ok resp = false ->
      chat self net msgs opts
      = inl (mkError ("Anthropic request failed (" +:+ pretty (status resp)
                      +:+ "): " +:+ text resp))
      /\ chat self net msgs opts <> inl EmptyCompletionAnthropic
  | _ =>
      let resp := fetchOpenAI net (openAIRequest self msgs t m) in
      ok resp = false ->
      chat self net msgs opts
      = inl (mkError ("LLM request failed (" +:+ pretty (status resp)
                      +:+ "): " +:+ text resp))
      /\ chat self net msgs opts <> inl EmptyCompletionOpenAI
  end.
Proof.
  intros t m. unfold chat. fold t m.
  destruct (provider (config self)); intros Hok;
    unfold chatOpenAI, chatAnthropic; rewrite Hok; cbn [negb];
    (split; [done | discriminate]).
Qed.

Lemma chat_transport_failure_witness :
  chat (Samples.service openai)
       {| fetchOpenAI := fun _ =>
            {| ok := false; status := 429; text := "slow down";
               json := {| choices := None; oa_usage := None |} |};
          fetchAnthropic := fun _ => Samples.anthropicReply None |}
       [{| role := user; content := "hi" |}] Samples.noOptions
  = inl (mkError "LLM request failed (429): slow down").
Proof.
  pose proof (chat_transport_failure (Samples.service openai)
                {| fetchOpenAI := fun _ =>
                     {| ok := false; status := 429; text := "slow down";
                        json := {| choices := None; oa_usage := None |} |};
                   fetchAnthropic := fun _ => Samples.anthropicReply None |}
                [{| role := user; content := "hi" |}] Samples.noOptions) as H.
  cbv zeta in H. exact (proj1 (H eq_refl)).
Defined.

End ChatOutcome.

(** ** The gateway: what [createLLMService] builds *)

Section CreatedService.
Import JS Llm.

(** X3.  [createLLMService] succeeds exactly when one of the three API keys
    holds a non-empty string; [LLM_PROVIDER], known or not, never makes it
    fail and never makes it succeed. *)
Theorem createLLMService_succeeds_iff (env : Env) :
  (exists svc, createLLMService env = inr svc)
  <-> truthy_opt (ANTHROPIC_API_KEY env) || truthy_opt (OPENAI_API_KEY env)
      || truthy_opt (OPENROUTER_API_KEY env) = true.
Proof.
  rewrite createLLMService_selected.
  unfold Spec.selected, Spec.selectProvider, Spec.byPriority, Spec.keyPresent.
  cbn [List.find Spec.keyOf].
  destruct (truthy_opt (ANTHROPIC_API_KEY env)) eqn:Ha,
           (truthy_opt (OPENAI_API_KEY env)) eqn:Ho,
           (truthy_opt (OPENROUTER_API_KEY env)) eqn:Hr;
    destruct (LLM_PROVIDER env ≫= Spec.providerOfName) as [[]|];
    cbn [Spec.keyOf orb]; rewrite ?Ha, ?Ho, ?Hr;
    (split; [done || (intros [? ?]; discriminate) | eauto || done]).
Qed.

(** X4.  The gateway that [createLLMService] builds holds a non-empty API
    key, which is the key of its own provider; it talks to the default
    endpoint of that provider; its model is [LLM_MODEL] whenever the
    variable is set, the empty string included, and the default model of the
    provider otherwise. *)
Theorem createLLMService_built (env : Env) (svc : LLMService) :
  createLLMService env = inr svc ->
  truthy (apiKey (config svc)) = true
  /\ Spec.keyOf env (getProvider svc) = Some (apiKey (config svc))
  /\ svc_baseUrl svc = DEFAULT_URLS (getProvider svc)
  /\ getModel svc
     = match LLM_MODEL env with
       | Some mdl => mdl
       | None => DEFAULT_MODELS (getProvider svc)
       end.
Proof.
  unfold createLLMService, preferred, present.
  destruct env as [a o r p mdl].
  cbn [ANTHROPIC_API_KEY OPENAI_API_KEY OPENROUTER_API_KEY LLM_PROVIDER
       LLM_MODEL].
  destruct mdl; repeat case_match; try done; intros [= <-]; cbn;
    by simplify_eq.
Qed.

Lemma createLLMService_built_witness :
  exists svc,
    createLLMService
      {| ANTHROPIC_API_KEY := Some "sk-ant-1"; OPENAI_API_KEY := None;
         OPENROUTER_API_KEY := None; LLM_PROVIDER := Some "openai";
         LLM_MODEL := Some "" |} = inr svc
    /\ getProvider svc = anthropic
    /\ getModel svc = ""
    /\ svc_baseUrl svc = "https://api.anthropic.com/v1".
Proof.
  eexists. split; [reflexivity|].
  destruct (createLLMService_built
              {| ANTHROPIC_API_KEY := Some "sk-ant-1"; OPENAI_API_KEY := None;
                 OPENROUTER_API_KEY := None; LLM_PROVIDER := Some "openai";
                 LLM_MODEL := Some "" |} _ eq_refl) as (_ & _ & Hurl & Hm).
  split; [reflexivity|]. split; [exact Hm | exact Hurl].
Defined.

End CreatedService.

(** ** The evolution engine: the change list *)

Section ChangeList.
Import JS Memory.

Variables (P : UserProfile) (E : ExtractedPreferences).
Context {rt : JS.Runtime}.

Ltac blocks :=
  unfold evolveHeroes, evolveRoles, evolveSkillLevel, evolvePlaystyle,
    evolveGoals, record;
  cbv zeta; repeat case_match;
  cbn [changes updated initial emptyPartial app upd_preferredHeroes
       upd_preferredRoles upd_skillLevel upd_playstyle upd_learningGoals
       set_preferredHeroes set_preferredRoles set_skillLevel set_playstyle
       set_learningGoals field oldValue newValue action fmap list_fmap
       option_fmap option_map].

(** A block reports a change exactly when it writes its field. *)
Lemma evolveHeroes_reports :
  changes (evolveHeroes P E initial) = []
  <-> upd_preferredHeroes (updated (evolveHeroes P E initial)) = None.
Proof. blocks; done. Qed.

Lemma evolveRoles_reports :
  changes (evolveRoles P E initial) = []
  <-> upd_preferredRoles (updated (evolveRoles P E initial)) = None.
Proof. blocks; done. Qed.

Lemma evolveSkillLevel_reports :
  changes (evolveSkillLevel P E initial) = []
  <-> upd_skillLevel (updated (evolveSkillLevel P E initial)) = None.
Proof. blocks; done. Qed.

Lemma evolvePlaystyle_reports :
  changes (evolvePlaystyle P E initial) = []
  <-> upd_playstyle (updated (evolvePlaystyle P E initial)) = None.
Proof. blocks; done. Qed.

Lemma evolveGoals_reports :
  changes (evolveGoals P E initial) = []
  <-> upd_learningGoals (updated (evolveGoals P E initial)) = None.
Proof. blocks; done. Qed.

(** X5.  [evolveProfile] returns an empty change list exactly when it
    returns an empty [updated] record, so a caller that stores [updated]
    only when [changes] is not empty loses nothing. *)
Theorem evolveProfile_changes_iff_updated :
  changes (evolveProfile P E) = [] <-> updated (evolveProfile P E) = emptyPartial.
Proof.
  rewrite evolveProfile_changes, evolveProfile_updated.
  rewrite !app_nil.
  rewrite evolveHeroes_reports, evolveRoles_reports, evolveSkillLevel_reports,
    evolvePlaystyle_reports, evolveGoals_reports.
  unfold emptyPartial. split.
  - by intros (-> & -> & -> & -> & ->).
  - by intros [= -> -> -> -> ->].
Qed.

(** The names reported by each block. *)
Lemma evolveHeroes_names :
  field <$> changes (evolveHeroes P E initial) `sublist_of` ["preferredHeroes"].
Proof. blocks; by repeat constructor. Qed.

Lemma evolveRoles_names :
  field <$> changes (evolveRoles P E initial) `sublist_of` ["preferredRoles"].
Proof. blocks; by repeat constructor. Qed.

Lemma evolveSkillLevel_names :
  field <$> changes (evolveSkillLevel P E initial) `sublist_of` ["skillLevel"].
Proof. blocks; by repeat constructor. Qed.

Lemma evolvePlaystyle_names :
  field <$> changes (evolvePlaystyle P E initial) `sublist_of` ["playstyle"].
Proof. blocks; by repeat constructor. Qed.

Lemma evolveGoals_names :
  field <$> changes (evolveGoals P E initial) `sublist_of` ["learningGoals"].
Proof. blocks; by repeat constructor. Qed.

(** X6.  The change list names each field at most once, in the order
    heroes, roles, skill level, playstyle, goals; it never has more than
    five entries and never names another field. *)
Theorem evolveProfile_change_order :
  field <$> changes (evolveProfile P E)
  `sublist_of` ["preferredHeroes"; "preferredRoles"; "skillLevel";
                "playstyle"; "learningGoals"].
Proof.
  rewrite evolveProfile_changes, !fmap_app.
  change ["preferredHeroes"; "preferredRoles"; "skillLevel"; "playstyle";
          "learningGoals"]
    with (["preferredHeroes"] ++ ["preferredRoles"] ++ ["skillLevel"]
          ++ ["playstyle"] ++ ["learningGoals"]).
  repeat apply sublist_app;
    auto using evolveHeroes_names, evolveRoles_names, evolveSkillLevel_names,
      evolvePlaystyle_names, evolveGoals_names.
Qed.

(** The entry of each block agrees with the profile and with the field the
    block writes. *)
Lemma evolveHeroes_accurate u :
  upd_preferredHeroes u = upd_preferredHeroes (updated (evolveHeroes P E initial)) ->
  Forall (Audit.accurate P u) (changes (evolveHeroes P E initial)).
Proof. intros Hu. revert Hu. blocks; intros Hu; repeat constructor.
  unfold Audit.updatedValue. cbn. by rewrite Hu. Qed.

Lemma evolveRoles_accurate u :
  upd_preferredRoles u = upd_preferredRoles (updated (evolveRoles P E initial)) ->
  Forall (Audit.accurate P u) (changes (evolveRoles P E initial)).
Proof. intros Hu. revert Hu. blocks; intros Hu; repeat constructor.
  unfold Audit.updatedValue. cbn. by rewrite Hu. Qed.

Lemma evolveSkillLevel_accurate u :
  upd_skillLevel u = upd_skillLevel (updated (evolveSkillLevel P E initial)) ->
  Forall (Audit.accurate P u) (changes (evolveSkillLevel P E initial)).
Proof. intros Hu. revert Hu. blocks; intros Hu; repeat constructor.
  unfold Audit.updatedValue. cbn. by rewrite Hu. Qed.

Lemma evolvePlaystyle_accurate u :
  upd_playstyle u = upd_playstyle (updated (evolvePlaystyle P E initial)) ->
  Forall (Audit.accurate P u) (changes (evolvePlaystyle P E initial)).
Proof.
  intros Hu. revert Hu. blocks; intros Hu; repeat constructor;
    first [ unfold Audit.updatedValue; cbn; by rewrite Hu
          | unfold Audit.currentValue; cbn;
            match goal with H : playstyle P = _ |- _ => by rewrite H end ].
Qed.

Lemma evolveGoals_accurate u :
  upd_learningGoals u = upd_learningGoals (updated (evolveGoals P E initial)) ->
  Forall (Audit.accurate P u) (changes (evolveGoals P E initial)).
Proof. intros Hu. revert Hu. blocks; intros Hu; repeat constructor.
  unfold Audit.updatedValue. cbn. by rewrite Hu. Qed.

(** X7.  Every entry of the change list is accurate: its [oldValue] is the
    value of the named field in the profile passed in, and its [newValue] is
    the value of that field in [updated]. *)
Theorem evolveProfile_changes_accurate :
  Forall (Audit.accurate P (updated (evolveProfile P E)))
         (changes (evolveProfile P E)).
Proof.
  rewrite evolveProfile_changes.
  rewrite !Forall_app. repeat split.
  - apply evolveHeroes_accurate. by rewrite evolveProfile_updated.
  - apply evolveRoles_accurate. by rewrite evolveProfile_updated.
  - apply evolveSkillLevel_accurate. by rewrite evolveProfile_updated.
  - apply evolvePlaystyle_accurate. by rewrite evolveProfile_updated.
  - apply evolveGoals_accurate. by rewrite evolveProfile_updated.
Qed.

End ChangeList.

(** ** The evolution engine: what is stored afterwards *)

Section StoredAfter.
Import JS Memory.

Variables (P : UserProfile) (E : ExtractedPreferences) (now : string).
Context {rt : JS.Runtime}.

Lemma prefix_append (a b : string) : String.prefix a (a +:+ b) = true.
Proof.
  induction a as [|c a IH]; [by destruct b|].
  change (String c a +:+ b) with (String c (a +:+ b)). cbn [String.prefix].
  destruct (ascii_dec c c) as [_|Hne]; [exact IH | by destruct Hne].
Qed.

(** X8.  The skill level is replaced, not merged: after the update the
    stored skill level is the extracted one whenever one was extracted
    (a non-empty string), whatever was stored before, and it is the stored
    one otherwise; the engine never clears it. *)
Theorem skillLevel_replaced :
  let P' := Routes.updateProfile now P (updated (evolveProfile P E)) in
  skillLevel P'
  = match ex_skillLevel E with
    | Some s => if truthy s then Some s else skillLevel P
    | None => skillLevel P
    end.
Proof.
  intros P'. unfold P'. rewrite updateProfile_skillLevel, evolveProfile_updated.
  cbn [upd_skillLevel]. unfold evolveSkillLevel, record.
  destruct (ex_skillLevel E) as [s|]; [|done].
  destruct (truthy s); [|done].
  case_bool_decide as Hs; [by rewrite Hs | done].
Qed.

(** X9.  The three lists keep their order: the stored list is a prefix of
    the list stored afterwards, and what follows it is a sublist of the
    extracted list, in the order of extraction. *)
Theorem lists_extended_in_order :
  let P' := Routes.updateProfile now P (updated (evolveProfile P E)) in
  (preferredHeroes P `prefix_of` preferredHeroes P'
   /\ drop (length (preferredHeroes P)) (preferredHeroes P')
      `sublist_of` default [] (heroes E))
  /\ (preferredRoles P `prefix_of` preferredRoles P'
      /\ drop (length (preferredRoles P)) (preferredRoles P')
         `sublist_of` default [] (roles E))
  /\ (learningGoals P `prefix_of` learningGoals P'
      /\ drop (length (learningGoals P)) (learningGoals P')
         `sublist_of` default [] (ex_learningGoals E)).
Proof.
  intros P'. unfold P'.
  rewrite updateProfile_heroes, updateProfile_roles, updateProfile_goals.
  repeat split.
  - destruct (upd_preferredHeroes _) as [l|] eqn:Hl; cbn [nullish]; [|done].
    apply evolveProfile_heroes in Hl as (hs & _ & ->). by apply prefix_app_r.
  - destruct (upd_preferredHeroes _) as [l|] eqn:Hl; cbn [nullish].
    + apply evolveProfile_heroes in Hl as (hs & -> & ->).
      rewrite drop_app_length. apply sublist_filter.
    + rewrite drop_all. apply sublist_nil_l.
  - destruct (upd_preferredRoles _) as [l|] eqn:Hl; cbn [nullish]; [|done].
    apply evolveProfile_roles in Hl as (hs & _ & ->). by apply prefix_app_r.
  - destruct (upd_preferredRoles _) as [l|] eqn:Hl; cbn [nullish].
    + apply evolveProfile_roles in Hl as (hs & -> & ->).
      rewrite drop_app_length. apply sublist_filter.
    + rewrite drop_all. apply sublist_nil_l.
  - destruct (upd_learningGoals _) as [l|] eqn:Hl; cbn [nullish]; [|done].
    apply evolveProfile_goals in Hl as (hs & _ & ->). by apply prefix_app_r.
  - destruct (upd_learningGoals _) as [l|] eqn:Hl; cbn [nullish].
    + apply evolveProfile_goals in Hl as (hs & -> & ->).
      rewrite drop_app_length. apply sublist_filter.
    + rewrite drop_all. apply sublist_nil_l.
Qed.

(** X10.  When the extracted lists hold no duplicates themselves (exact for
    heroes, up to case for roles and goals), the update keeps the stored
    lists free of duplicates. *)
Theorem no_duplicates_kept :
  NoDup (preferredHeroes P) ->
  NoDup (toLowerCase <$> preferredRoles P) ->
  NoDup (toLowerCase <$> learningGoals P) ->
  NoDup (default [] (heroes E)) ->
  NoDup (toLowerCase <$> default [] (roles E)) ->
  NoDup (toLowerCase <$> default [] (ex_learningGoals E)) ->
  let P' := Routes.updateProfile now P (updated (evolveProfile P E)) in
  NoDup (preferredHeroes P')
  /\ NoDup (toLowerCase <$> preferredRoles P')
  /\ NoDup (toLowerCase <$> learningGoals P').
Proof.
  intros Hh Hr Hg Heh Her Heg P'. unfold P'.
  rewrite updateProfile_heroes, updateProfile_roles, updateProfile_goals.
  repeat split.
  - destruct (upd_preferredHeroes _) as [l|] eqn:Hl; cbn [nullish]; [|done].
    apply evolveProfile_heroes in Hl as (hs & Hhs & ->).
    rewrite Hhs in Heh. by apply newHeroes_NoDup.
  - destruct (upd_preferredRoles _) as [l|] eqn:Hl; cbn [nullish]; [|done].
    apply evolveProfile_roles in Hl as (hs & Hhs & ->).
    rewrite Hhs in Her. by apply newLowered_NoDup.
  - destruct (upd_learningGoals _) as [l|] eqn:Hl; cbn [nullish]; [|done].
    apply evolveProfile_goals in Hl as (hs & Hhs & ->).
    rewrite Hhs in Heg. by apply newLowered_NoDup.
Qed.

(** X11.  The playstyle is never truncated: the stored playstyle is a prefix
    of the playstyle stored afterwards; and an extracted playstyle
    (a non-empty string) either occurs in the playstyle stored afterwards
    as it is written, or was contained up to case in the stored one, which
    is then kept. *)
Theorem playstyle_never_truncated :
  let P' := Routes.updateProfile now P (updated (evolveProfile P E)) in
  (forall old, playstyle P = Some old ->
     exists new, playstyle P' = Some new /\ String.prefix old new = true)
  /\ (forall s, ex_playstyle E = Some s -> truthy s = true ->
        exists new, playstyle P' = Some new
          /\ (includes new s = true
              \/ (playstyle P = Some new
                  /\ includes (toLowerCase new) (toLowerCase s) = true))).
Proof.
  intros P'. unfold P'. rewrite updateProfile_playstyle, evolveProfile_updated.
  cbn [upd_playstyle]. unfold evolvePlaystyle, record. split.
  - intros old Hold. rewrite Hold.
    destruct (ex_playstyle E) as [s|];
      [destruct (truthy s)|]; cbv zeta;
      try (eexists; split; [reflexivity | apply prefix_refl]).
    destruct (truthy old) eqn:Ht; cbn [negb].
    + destruct (includes _ _); cbn [negb].
      * eexists; split; [reflexivity | apply prefix_refl].
      * eexists; split; [reflexivity | apply prefix_append].
    + destruct old; [|discriminate].
      eexists; split; [reflexivity | by destruct s].
  - intros s Hs Ht. rewrite Hs, Ht. cbv zeta.
    destruct (playstyle P) as [old|].
    + destruct (truthy old) eqn:Hto; cbn [negb].
      * destruct (includes _ _) eqn:Hi; cbn [negb].
        -- exists old. split; [done|]. by right.
        -- eexists; split; [reflexivity|]. left.
           rewrite append_assoc. apply includes_app_r.
      * eexists; split; [reflexivity|]. left. apply includes_refl.
    + eexists; split; [reflexivity|]. left. apply includes_refl.
Qed.

(** X12.  Once an update with a change is stored, the profile has data for
    personalization. *)
Theorem changes_give_profile_data :
  changes (evolveProfile P E) <> [] ->
  Prompt.hasProfileData
    (Routes.updateProfile now P (updated (evolveProfile P E))) = true.
Proof.
  rewrite evolveProfile_changes. unfold Prompt.hasProfileData.
  rewrite updateProfile_heroes, updateProfile_roles, updateProfile_goals,
    updateProfile_skillLevel, updateProfile_playstyle, evolveProfile_updated.
  cbn [upd_preferredHeroes upd_preferredRoles upd_skillLevel upd_playstyle
       upd_learningGoals].
  intros Hne.
  destruct (changes (evolveHeroes P E initial)) eqn:Hh.
  2:{ clear Hne. revert Hh. unfold evolveHeroes, record.
      repeat case_match; try done. intros _. cbn [updated upd_preferredHeroes
        set_preferredHeroes nullish].
      rewrite length_app.
      destruct (newHeroes (preferredHeroes P) _); [done|].
      cbn [length]. replace (0 <? _)%nat with true; [done|].
      symmetry. apply Nat.ltb_lt. lia. }
  destruct (changes (evolveRoles P E initial)) eqn:Hr.
  2:{ clear Hne. revert Hr. unfold evolveRoles, record.
      repeat case_match; try done. intros _. cbn [updated upd_preferredRoles
        set_preferredRoles nullish].
      rewrite length_app.
      destruct (newLowered (preferredRoles P) _); [done|].
      cbn [length]. replace (0 <? _ + _)%nat with true;
        [by rewrite orb_true_r|].
      symmetry. apply Nat.ltb_lt. lia. }
  destruct (changes (evolveSkillLevel P E initial)) eqn:Hs.
  2:{ clear Hne. revert Hs. unfold evolveSkillLevel, record.
      repeat case_match; try done. intros _. cbn [updated upd_skillLevel
        set_skillLevel nullish truthy_opt].
      match goal with H : truthy _ = true |- _ => rewrite H end.
      by rewrite !orb_true_r. }
  destruct (changes (evolvePlaystyle P E initial)) eqn:Hp.
  2:{ clear Hne. revert Hp. unfold evolvePlaystyle, record. cbv zeta.
      repeat case_match; try done; intros _; cbn [updated upd_playstyle
        set_playstyle nullish truthy_opt].
      - match goal with H : truthy _ = true |- _ => rewrite H end.
        by rewrite !orb_true_r.
      - rewrite truthy_append_r; [by rewrite !orb_true_r|].
        by apply truthy_append_r.
      - match goal with H : truthy _ = true |- _ => rewrite H end.
        by rewrite !orb_true_r. }
  destruct (changes (evolveGoals P E initial)) eqn:Hg; [done|].
  clear Hne. revert Hg. unfold evolveGoals, record.
  repeat case_match; try done. intros _. cbn [updated upd_learningGoals
    set_learningGoals nullish].
  rewrite length_app.
  destruct (newLowered (learningGoals P) _); [done|].
  cbn [length]. replace (0 <? _ + _)%nat with true; [by rewrite !orb_true_r|].
  symmetry. apply Nat.ltb_lt. lia.
Qed.

End StoredAfter.

Section StoredAfterWitnesses.
Import JS Memory.

Lemma no_duplicates_kept_witness :
  NoDup (preferredHeroes
           (Routes.updateProfile "t1" (Samples.profile ["Axe"] ["carry"] None)
              (updated (evolveProfile (Samples.profile ["Axe"] ["carry"] None)
                          (Samples.onlyHeroes ["Axe"; "Lina"])))))
  /\ preferredHeroes
       (Routes.updateProfile "t1" (Samples.profile ["Axe"] ["carry"] None)
          (updated (evolveProfile (Samples.profile ["Axe"] ["carry"] None)
                      (Samples.onlyHeroes ["Axe"; "Lina"]))))
     = ["Axe"; "Lina"].
Proof.
  split; [|reflexivity].
  apply (no_duplicates_kept (Samples.profile ["Axe"] ["carry"] None)
           (Samples.onlyHeroes ["Axe"; "Lina"]) "t1").
  - apply NoDup_singleton.
  - apply NoDup_singleton.
  - apply NoDup_nil_2.
  - apply NoDup_cons. split; [by intros ?%list_elem_of_singleton|].
    apply NoDup_singleton.
  - apply NoDup_nil_2.
  - apply NoDup_nil_2.
Defined.

Lemma playstyle_never_truncated_witness :
  exists new,
    playstyle
      (Routes.updateProfile "t1"
         (Samples.profile [] [] (Some "farming focused"))
         (updated (evolveProfile
                     (Samples.profile [] [] (Some "farming focused"))
                     (Samples.onlyPlaystyle "Aggressive"))))
    = Some new
    /\ String.prefix "farming focused" new = true.
Proof.
  exact (proj1 (playstyle_never_truncated
                  (Samples.profile [] [] (Some "farming focused"))
                  (Samples.onlyPlaystyle "Aggressive") "t1")
           "farming focused" eq_refl).
Defined.

Lemma changes_give_profile_data_witness :
  Prompt.hasProfileData
    (Routes.updateProfile "t1" (Samples.profile [] [] None)
       (updated (evolveProfile (Samples.profile [] [] None)
                   (Samples.onlyRoles ["mid"])))) = true.
Proof.
  apply (changes_give_profile_data (Samples.profile [] [] None)
           (Samples.onlyRoles ["mid"]) "t1").
  discriminate.
Defined.

End StoredAfterWitnesses.

(** ** Extraction and evolution together *)

Section NothingExtracted.
Import JS Memory Profile.

(** X13.  A record for which [hasPreferences] is false changes nothing:
    [evolveProfile] returns the empty [updated] record and the empty change
    list, so the caller that returns early on [!hasPreferences] skips no
    update. *)
Theorem no_preferences_no_change {rt : Runtime}
    (P : UserProfile) (E : ExtractedPreferences) :
  hasPreferences E = false -> evolveProfile P E = initial.
Proof.
  unfold hasPreferences. rewrite !orb_false_iff.
  intros ((((Hh & Hr) & Hg) & Hs) & Hp).
  unfold evolveProfile, evolveHeroes, evolveRoles, evolveSkillLevel,
    evolvePlaystyle, evolveGoals.
  destruct (heroes E) as [hs|]; rewrite ?Hh;
    destruct (roles E) as [rs|]; rewrite ?Hr;
    destruct (ex_learningGoals E) as [gs|]; rewrite ?Hg;
    destruct (ex_skillLevel E) as [s|]; cbn [truthy_opt] in Hs; rewrite ?Hs;
    destruct (ex_playstyle E) as [p|]; cbn [truthy_opt] in Hp; rewrite ?Hp;
    reflexivity.
Qed.

(** A validated record with an empty [roles] array and nothing else. *)
Lemma no_preferences_no_change_witness :
  evolveProfile (Samples.profile ["Axe"] [] None) (Samples.onlyRoles [])
  = initial.
Proof.
  apply (no_preferences_no_change (Samples.profile ["Axe"] [] None)
           (Samples.onlyRoles [])).
  reflexivity.
Defined.

End NothingExtracted.

(** ** More on strings *)

Section StringFacts.
Import JS.

Lemma append_cons (c : ascii) (a b : string) :
  String c a +:+ b = String c (a +:+ b).
Proof. reflexivity. Qed.

Lemma append_empty_r (a : string) : a +:+ "" = a.
Proof. induction a as [|c a IH]; [done|]. by rewrite append_cons, IH. Qed.

Lemma prefix_empty (a : string) : String.prefix "" a = true.
Proof. by destruct a. Qed.

Lemma prefix_spec (x a : string) :
  String.prefix x a = true <-> exists q, a = x +:+ q.
Proof.
  revert a. induction x as [|c x IH]; intros a.
  - rewrite prefix_empty. split; [by exists a | done].
  - destruct a as [|d a]; cbn [String.prefix].
    + split; [done | by intros [q ?]].
    + destruct (ascii_dec c d) as [->|Hne].
      * rewrite IH. split; intros [q Hq]; exists q.
        -- by rewrite append_cons, <- Hq.
        -- rewrite append_cons in Hq. by injection Hq.
      * split; [done|]. intros [q Hq]. rewrite append_cons in Hq.
        injection Hq as ? ?. by destruct Hne.
Qed.

Lemma includes_unfold (a x : string) :
  includes a x
  = String.prefix x a
    || match a with
       | EmptyString => false
       | String _ a' => includes a' x
       end.
Proof. by destruct a. Qed.

(** [includes] is the substring relation. *)
Lemma includes_spec (a x : string) :
  includes a x = true <-> exists p q, a = p +:+ x +:+ q.
Proof.
  split.
  - induction a as [|c a IH]; rewrite includes_unfold, orb_true_iff.
    + intros [[q Hq]%prefix_spec|?]; [|done]. by exists "", q.
    + intros [[q Hq]%prefix_spec|(p & q & Hq)%IH].
      * by exists "", q.
      * exists (String c p), q. by rewrite append_cons, <- Hq.
  - intros (p & q & ->). induction p as [|c p IH].
    + rewrite includes_unfold, orb_true_iff. left.
      apply prefix_spec. by exists q.
    + rewrite append_cons, includes_unfold, IH. apply orb_true_r.
Qed.

Lemma includes_trans (a b c : string) :
  includes a b = true -> includes b c = true -> includes a c = true.
Proof.
  rewrite !includes_spec. intros (p & q & ->) (p' & q' & ->).
  exists (p +:+ p'), (q' +:+ q). by rewrite !append_assoc.
Qed.

Lemma includes_app_left (a b x : string) :
  includes a x = true -> includes (a +:+ b) x = true.
Proof.
  rewrite !includes_spec. intros (p & q & ->).
  exists p, (q +:+ b). by rewrite !append_assoc.
Qed.

Lemma includes_app_right (a b x : string) :
  includes b x = true -> includes (a +:+ b) x = true.
Proof.
  rewrite !includes_spec. intros (p & q & ->).
  exists (a +:+ p), q. by rewrite !append_assoc.
Qed.

(** Every element of an array occurs in its [join]. *)
Lemma includes_join (sep x : string) (l : list string) :
  x ∈ l -> includes (JSArrays.join sep l) x = true.
Proof.
  unfold JSArrays.join. induction l as [|y l IH]; [by intros ?%elem_of_nil|].
  intros [->|Hx]%elem_of_cons.
  - destruct l; cbn [String.concat]; [apply includes_refl|].
    apply includes_app_left, includes_refl.
  - destruct l as [|z l]; [by apply elem_of_nil in Hx|].
    cbn [String.concat]. apply includes_app_right, includes_app_right.
    by apply IH.
Qed.

(** *** White space of the ASCII run time *)

Lemma asciiTrimStart_head (s : string) :
  asciiTrimStart s = ""
  \/ exists c r, asciiTrimStart s = String c r /\ Ascii.is_space c = false.
Proof.
  induction s as [|c s IH]; [by left|]. cbn [asciiTrimStart].
  destruct (Ascii.is_space c) eqn:Hc; [done|]. right. by exists c, s.
Qed.

Lemma asciiTrimStart_idem (s : string) :
  asciiTrimStart (asciiTrimStart s) = asciiTrimStart s.
Proof.
  destruct (asciiTrimStart_head s) as [->|(c & r & -> & Hc)]; [done|].
  cbn [asciiTrimStart]. by rewrite Hc.
Qed.

Lemma asciiTrimEnd_idem (s : string) :
  asciiTrimEnd (asciiTrimEnd s) = asciiTrimEnd s.
Proof.
  induction s as [|c s IH]; [done|]. cbn [asciiTrimEnd].
  destruct (Ascii.is_space c && String.eqb (asciiTrimEnd s) "") eqn:Hc; [done|].
  cbn [asciiTrimEnd]. by rewrite IH, Hc.
Qed.

(** [asciiTrim] is idempotent: a trimmed string is its own [asciiTrim]. *)
Lemma asciiTrim_idem (s : string) : asciiTrim (asciiTrim s) = asciiTrim s.
Proof.
  unfold asciiTrim.
  destruct (asciiTrimStart_head s) as [->|(c & r & -> & Hc)]; [done|].
  cbn [asciiTrimEnd]. rewrite Hc. cbn [andb asciiTrimStart]. rewrite Hc.
  change (asciiTrimEnd (String c (asciiTrimEnd r)))
    with (if Ascii.is_space c && String.eqb (asciiTrimEnd (asciiTrimEnd r)) ""
          then "" else String c (asciiTrimEnd (asciiTrimEnd r))).
  by rewrite Hc, asciiTrimEnd_idem.
Qed.

Lemma asciiTrim_trimStart (s : string) :
  asciiTrim (asciiTrimStart s) = asciiTrim s.
Proof. unfold asciiTrim. by rewrite asciiTrimStart_idem. Qed.

(** *** Backquotes and fences *)

Lemma no_backquote_cons (c : ascii) (a : string) :
  includes (String c a) "`" = false -> c <> "`"%char /\ includes a "`" = false.
Proof.
  rewrite includes_unfold, orb_false_iff. cbn [String.prefix].
  intros [Hp Ha]. split; [|done]. intros ->.
  destruct (ascii_dec "`" "`") as [_|Hne]; [|by destruct Hne].
  by rewrite prefix_empty in Hp.
Qed.

(** A fence is found right after a text without backquotes. *)
Lemma split_at_fence (a b : string) :
  includes a "`" = false ->
  split_at "```" (a +:+ "```" +:+ b) = Some (a, b).
Proof.
  induction a as [|c a IH]; intros Ha.
  - change ("" +:+ "```" +:+ b) with (String "`" (String "`" (String "`" b))).
    cbn [split_at String.prefix].
    destruct (ascii_dec "`" "`") as [_|Hne]; [|by destruct Hne].
    by rewrite prefix_empty.
  - apply no_backquote_cons in Ha as [Hc Ha].
    rewrite append_cons. cbn [split_at String.prefix].
    destruct (ascii_dec "`" c) as [<-|_]; [done|].
    by rewrite IH.
Qed.

Lemma split_at_none (sep s : string) :
  includes s sep = false -> split_at sep s = None.
Proof.
  induction s as [|c s IH]; rewrite includes_unfold, orb_false_iff;
    intros [Hp Hs]; cbn [split_at]; rewrite Hp; [done|].
  by rewrite IH.
Qed.

Lemma asciiTrimStart_before_fence (a b : string) :
  asciiTrimStart (a +:+ "```" +:+ b) = asciiTrimStart a +:+ "```" +:+ b.
Proof.
  induction a as [|c a IH]; [done|].
  rewrite append_cons. cbn [asciiTrimStart].
  by destruct (Ascii.is_space c).
Qed.

Lemma no_backquote_asciiTrimStart (a : string) :
  includes a "`" = false -> includes (asciiTrimStart a) "`" = false.
Proof.
  induction a as [|c a IH]; [done|]. intros Ha. cbn [asciiTrimStart].
  destruct (Ascii.is_space c); [|done].
  apply IH. by apply no_backquote_cons in Ha as [_ ?].
Qed.

End StringFacts.

(** ** The extractor: fenced blocks and sanitized strings *)

Section ExtractorMore.
Import JS Profile.

(** The ASCII run time satisfies the laws of white space. *)
Lemma asciiRuntime_SpaceLaws : SpaceLaws asciiRuntime.
Proof.
  split; [|split].
  - apply asciiTrimStart_before_fence.
  - apply no_backquote_asciiTrimStart.
  - apply asciiTrim_trimStart.
Qed.

(** The capture of a fenced block, with or without the [json] tag. *)
Lemma jsonStr_fenced {rt : Runtime} (content lead inside rest : string) :
  SpaceLaws rt ->
  includes lead "`" = false ->
  includes inside "`" = false ->
  content = lead +:+ "```" +:+ "json" +:+ inside +:+ "```" +:+ rest
  \/ (String.prefix "json" inside = false
      /\ content = lead +:+ "```" +:+ inside +:+ "```" +:+ rest) ->
  jsonStr content = trim inside.
Proof.
  intros (Hskip & Hquote & Htrim) Hlead Hin Hcontent.
  assert (Hcap : forall after,
            split_at "```" (trimStart (inside +:+ "```" +:+ after))
            = Some (trimStart inside, after)).
  { intros after. rewrite Hskip. by apply split_at_fence, Hquote. }
  destruct Hcontent as [->|[Htag ->]].
  - unfold jsonStr, fenced. rewrite (split_at_fence lead) by done.
    rewrite (proj2 (prefix_spec "json" _)) by by eexists.
    change (drop_chars 4 ("json" +:+ inside +:+ "```" +:+ rest))
      with (inside +:+ "```" +:+ rest).
    rewrite Hcap. apply Htrim.
  - unfold jsonStr, fenced. rewrite (split_at_fence lead) by done.
    assert (Hp : String.prefix "json" (inside +:+ "```" +:+ rest) = false).
    { clear Hcap Hin.
      destruct inside as [|a [|b [|c [|d inside]]]]; rewrite ?append_cons;
        cbv [String.append]; cbn [String.prefix] in *;
        repeat (destruct (ascii_dec _ _) as [?|?]; try done).
      by rewrite prefix_empty in Htag. }
    rewrite Hp, Hcap. apply Htrim.
Qed.

Lemma jsonStr_plain {rt : Runtime} (content : string) :
  includes content "```" = false -> jsonStr content = content.
Proof.
  intros Hno. unfold jsonStr, fenced. by rewrite split_at_none.
Qed.

(** [extractPreferences] once the gateway has answered. *)
Lemma extractPreferences_answered {rt : Runtime} net JSON_parse message llm
    (response : Llm.LLMResponse) :
  Llm.chat llm net (extractionMessages message) extractionOptions
  = inr response ->
  extractPreferences net JSON_parse message llm
  = match JSON_parse (jsonStr (trim (Llm.resp_content response))) with
    | Some parsed =>
        match validate parsed with
        | inr result => result
        | inl _ => emptyPreferences
        end
    | None => emptyPreferences
    end.
Proof.
  intros Hchat.
  unfold extractPreferences, extractPreferences_try, parseAndValidate.
  rewrite Hchat. by destruct (JSON_parse _).
Qed.

(** X14.  A fenced block is stripped before parsing.  When the completion,
    trimmed, holds a block between two fences, with or without the [json]
    tag, and neither the text before the block nor the text inside it holds
    a backquote, then [extractPreferences] hands the trimmed inside of the
    block to [JSON.parse], whatever follows the closing fence, and returns
    the validated result.  White space is that of the run time, of which
    only [SpaceLaws] is used. *)
Theorem fenced_block_parsed {rt : Runtime}
    (net : Llm.Network) (JSON_parse : string -> option json)
    (message : string) (llm : Llm.LLMService) (response : Llm.LLMResponse)
    (lead inside rest : string) :
  SpaceLaws rt ->
  Llm.chat llm net (extractionMessages message) extractionOptions
  = inr response ->
  includes lead "`" = false ->
  includes inside "`" = false ->
  trim (Llm.resp_content response)
  = lead +:+ "```" +:+ "json" +:+ inside +:+ "```" +:+ rest
  \/ (String.prefix "json" inside = false
      /\ trim (Llm.resp_content response)
         = lead +:+ "```" +:+ inside +:+ "```" +:+ rest) ->
  extractPreferences net JSON_parse message llm
  = match JSON_parse (trim inside) with
    | Some parsed =>
        match validate parsed with
        | inr result => result
        | inl _ => emptyPreferences
        end
    | None => emptyPreferences
    end.
Proof.
  intros Hlaws Hchat Hlead Hin Hcontent.
  rewrite (extractPreferences_answered _ _ _ _ _ Hchat).
  by rewrite (jsonStr_fenced _ lead inside rest).
Qed.

(** The completion [Sure: ```json {"roles":["jungler", "carry"]} ```]. *)
Lemma fenced_block_parsed_witness :
  extractPreferences
    (Samples.network
       (Some ("Sure: " +:+ "```" +:+ "json" +:+ (" " +:+ Samples.rolesText +:+ " ")
              +:+ "```" +:+ "")))
    Samples.parse "I play carry" (Samples.service Llm.openai)
  = Samples.onlyRoles ["carry"].
Proof.
  rewrite (fenced_block_parsed
             (Samples.network
                (Some ("Sure: " +:+ "```" +:+ "json"
                       +:+ (" " +:+ Samples.rolesText +:+ " ") +:+ "```" +:+ "")))
             Samples.parse "I play carry" (Samples.service Llm.openai)
             {| Llm.resp_content :=
                  "Sure: " +:+ "```" +:+ "json"
                  +:+ (" " +:+ Samples.rolesText +:+ " ") +:+ "```" +:+ "";
                Llm.usage := None |}
             "Sure: " (" " +:+ Samples.rolesText +:+ " ") ""
             asciiRuntime_SpaceLaws eq_refl eq_refl eq_refl
             (or_introl eq_refl)).
  reflexivity.
Defined.

(** X15.  A completion without a fence is parsed as it is, trimmed: when the
    trimmed completion holds no run of three backquotes,
    [extractPreferences] hands it to [JSON.parse] unchanged and returns the
    validated result. *)
Theorem plain_text_parsed {rt : Runtime}
    (net : Llm.Network) (JSON_parse : string -> option json)
    (message : string) (llm : Llm.LLMService) (response : Llm.LLMResponse) :
  Llm.chat llm net (extractionMessages message) extractionOptions
  = inr response ->
  includes (trim (Llm.resp_content response)) "```" = false ->
  extractPreferences net JSON_parse message llm
  = match JSON_parse (trim (Llm.resp_content response)) with
    | Some parsed =>
        match validate parsed with
        | inr result => result
        | inl _ => emptyPreferences
        end
    | None => emptyPreferences
    end.
Proof.
  intros Hchat Hno.
  rewrite (extractPreferences_answered _ _ _ _ _ Hchat).
  by rewrite jsonStr_plain.
Qed.

(** The completion [ {"roles":["jungler", "carry"]} ], with a blank at
    either end. *)
Lemma plain_text_parsed_witness :
  extractPreferences
    (Samples.network (Some (" " +:+ Samples.rolesText +:+ " ")))
    Samples.parse "I play carry" (Samples.service Llm.anthropic)
  = Samples.onlyRoles ["carry"].
Proof.
  rewrite (plain_text_parsed (rt := asciiRuntime)
             (Samples.network (Some (" " +:+ Samples.rolesText +:+ " ")))
             Samples.parse "I play carry" (Samples.service Llm.anthropic)
             {| Llm.resp_content := " " +:+ Samples.rolesText +:+ " ";
                Llm.usage := None |}
             eq_refl eq_refl).
  reflexivity.
Defined.

(** The record returned by [extractPreferences] is the empty record or the
    result of a validation. *)
Lemma extractPreferences_cases {rt : Runtime} net JSON_parse message llm :
  extractPreferences net JSON_parse message llm = emptyPreferences
  \/ exists parsed,
       validate parsed = inr (extractPreferences net JSON_parse message llm).
Proof.
  unfold extractPreferences, extractPreferences_try, parseAndValidate.
  destruct (Llm.chat _ _ _ _) as [?|response]; [by left|].
  destruct (JSON_parse _) as [parsed|]; [|by left].
  destruct (validate parsed) as [?|E] eqn:Hv; [by left|]. right. eauto.
Qed.

Lemma trimmed_spec {rt : Runtime} (v : option json) (s : string) :
  trimmed v = Some s -> s <> "" /\ exists raw, s = trim raw.
Proof.
  unfold trimmed. destruct v as [[]|]; try done.
  destruct (truthy (trim s0)) eqn:Ht; [|done]. intros [= <-].
  split; [by apply truthy_spec | by eexists].
Qed.

(** X16.  The strings that [extractPreferences] returns are sanitized: a
    skill level or a playstyle, when present, is not empty and is the
    [trim] of a string, so that, [trim] being idempotent, it is its own
    [trim]: it has no white space at either end. *)
Theorem extracted_strings_trimmed {rt : Runtime}
    (net : Llm.Network) (JSON_parse : string -> option json)
    (message : string) (llm : Llm.LLMService) :
  (forall x : string, trim (trim x) = trim x) ->
  let E := extractPreferences net JSON_parse message llm in
  (forall s, ex_skillLevel E = Some s ->
     s <> "" /\ (exists raw, s = trim raw) /\ trim s = s)
  /\ (forall s, ex_playstyle E = Some s ->
        s <> "" /\ (exists raw, s = trim raw) /\ trim s = s).
Proof.
  intros Hidem E.
  assert (Hspec : forall v s, trimmed v = Some s ->
            s <> "" /\ (exists raw, s = trim raw) /\ trim s = s).
  { intros v s (Hne & raw & ->)%trimmed_spec. eauto. }
  unfold E.
  destruct (extractPreferences_cases net JSON_parse message llm)
    as [->|[parsed Hv]]; [done|].
  destruct (extractPreferences net JSON_parse message llm) as [h r sl ps g].
  unfold validate, bind, get in Hv.
  destruct parsed as [| | | |arr|fields]; try done;
    injection Hv as _ _ <- <- _;
    split; intros t; cbn [ex_skillLevel ex_playstyle]; try done;
    apply Hspec.
Qed.

(** The completion [{"skillLevel": " Legend ", "playstyle": "aggressive"}]:
    the skill level comes back as [Legend]. *)
Lemma extracted_strings_trimmed_witness :
  let E :=
    extractPreferences (Samples.network (Some Examples.levelText))
      Examples.parse "I am Legend" (Samples.service Llm.openai) in
  ex_skillLevel E = Some "Legend"
  /\ "Legend" <> "" /\ (exists raw, "Legend" = trim raw)
  /\ trim "Legend" = "Legend".
Proof.
  split; [reflexivity|].
  exact (proj1 (extracted_strings_trimmed
                  (Samples.network (Some Examples.levelText))
                  Examples.parse "I am Legend" (Samples.service Llm.openai)
                  asciiTrim_idem) "Legend" eq_refl).
Defined.

End ExtractorMore.

(** ** The prompt synthesizer *)

Section PromptFacts.
Import JS JSArrays Prompt.

Lemma length_pos_take {A : Type} (n : nat) (l : list A) :
  (0 <? length (take (S n) l))%nat = (0 <? length l)%nat.
Proof. by destruct l. Qed.

Lemma pushIf_head (c : bool) (s h : string) (parts : list string) :
  (exists mid, parts = h :: mid) -> exists mid, pushIf c s parts = h :: mid.
Proof.
  intros [mid ->]. unfold pushIf. destruct c; [|by exists mid].
  by exists (mid ++ [s]).
Qed.

(** The sentences between [BASE] and [CLOSING]. *)
Lemma promptParts_shape (P : UserProfile) :
  exists mid, promptParts P = BASE :: mid ++ [CLOSING].
Proof.
  unfold promptParts. cbv zeta.
  match goal with
  | |- exists mid, ?chain ++ _ = _ =>
      assert (H : exists mid, chain = BASE :: mid)
  end.
  { apply pushIf_head.
    destruct (playstyle P); [apply pushIf_head|];
      do 2 apply pushIf_head;
      (destruct (skillLevel P); [apply pushIf_head|]); by exists []. }
  destruct H as [mid ->]. by exists mid.
Qed.

Lemma join_snoc (sep x : string) (l : list string) :
  l <> [] -> join sep (l ++ [x]) = join sep l +:+ sep +:+ x.
Proof.
  unfold join. induction l as [|y l IH]; [done|]. intros _.
  destruct l as [|z l]; [done|].
  change ((y :: z :: l) ++ [x]) with (y :: (z :: l) ++ [x]).
  change (String.concat sep (y :: (z :: l) ++ [x]))
    with (y +:+ sep +:+ String.concat sep ((z :: l) ++ [x])).
  rewrite IH by done.
  change (String.concat sep (y :: z :: l))
    with (y +:+ sep +:+ String.concat sep (z :: l)).
  by rewrite !append_assoc.
Qed.

Lemma join_cons (sep x : string) (l : list string) :
  l <> [] -> join sep (x :: l) = x +:+ sep +:+ join sep l.
Proof. by destruct l. Qed.

(** X17.  Every prompt starts with the base sentence and ends with the
    closing instruction, whatever the profile holds. *)
Theorem prompt_frame (P : UserProfile) :
  String.prefix (BASE +:+ " ") (buildPersonalizedPrompt P) = true
  /\ exists body, buildPersonalizedPrompt P = body +:+ " " +:+ CLOSING.
Proof.
  unfold buildPersonalizedPrompt.
  destruct (promptParts_shape P) as [mid ->]. split.
  - rewrite join_cons by by destruct mid.
    rewrite append_assoc. apply prefix_append.
  - rewrite app_comm_cons, join_snoc by done. eauto.
Qed.

(** X18.  A profile without data (no heroes, roles or goals, no skill level
    or playstyle other than an empty one) renders the base sentence and the
    closing instruction and nothing else. *)
Theorem prompt_of_empty_profile (P : UserProfile) :
  hasProfileData P = false ->
  buildPersonalizedPrompt P = BASE +:+ " " +:+ CLOSING.
Proof.
  unfold hasProfileData. rewrite !orb_false_iff.
  intros ((((Hh & Hr) & Hs) & Hp) & Hg).
  unfold buildPersonalizedPrompt, promptParts. rewrite Hh, Hr, Hg.
  destruct (skillLevel P) as [s|]; cbn [truthy_opt] in Hs; rewrite ?Hs;
    destruct (playstyle P) as [p|]; cbn [truthy_opt] in Hp; rewrite ?Hp;
    reflexivity.
Qed.

Lemma prompt_of_empty_profile_witness :
  buildPersonalizedPrompt (Samples.profile [] [] (Some ""))
  = "You are a concise Dota 2 assistant. Tailor advice to their level and preferences. Use provided sources. Cite with [n]. Keep answers tight and practical.".
Proof.
  exact (prompt_of_empty_profile (Samples.profile [] [] (Some "")) eq_refl).
Defined.

(** X19.  The prompt reads the first five heroes and the first three goals
    only, and no identifier, bracket or time stamp: two profiles that agree
    on these, on the roles, on the skill level and on the playstyle render
    the same prompt. *)
Theorem prompt_truncation (P Q : UserProfile) :
  take 5 (preferredHeroes P) = take 5 (preferredHeroes Q) ->
  take 3 (learningGoals P) = take 3 (learningGoals Q) ->
  preferredRoles P = preferredRoles Q ->
  skillLevel P = skillLevel Q ->
  playstyle P = playstyle Q ->
  buildPersonalizedPrompt P = buildPersonalizedPrompt Q.
Proof.
  intros Hh Hg Hr Hs Hp.
  unfold buildPersonalizedPrompt, promptParts, heroSentence, goalSentence.
  rewrite <- (length_pos_take 4 (preferredHeroes P)),
          <- (length_pos_take 4 (preferredHeroes Q)),
          <- (length_pos_take 2 (learningGoals P)),
          <- (length_pos_take 2 (learningGoals Q)).
  by rewrite Hh, Hg, Hr, Hs, Hp.
Qed.

(** Membership in the array of sentences. *)
Lemma pushIf_keeps (c : bool) (s x : string) (parts : list string) :
  x ∈ parts -> x ∈ pushIf c s parts.
Proof. unfold pushIf. destruct c; [|done]. intros ?. apply elem_of_app. by left. Qed.

Lemma pushIf_pushes (s : string) (parts : list string) :
  s ∈ pushIf true s parts.
Proof. unfold pushIf. apply elem_of_app. right. constructor. Qed.

Lemma includes_sentence (P : UserProfile) (sentence x : string) :
  sentence ∈ promptParts P -> includes sentence x = true ->
  includes (buildPersonalizedPrompt P) x = true.
Proof.
  intros Hs Hx. apply includes_trans with sentence; [|done].
  by apply includes_join.
Qed.

(** X20.  Every preferred role is named in the prompt, without truncation,
    and so are the skill level and the playstyle when the profile has
    them. *)
Theorem prompt_names_profile (P : UserProfile) :
  (forall r, r ∈ preferredRoles P ->
     includes (buildPersonalizedPrompt P) r = true)
  /\ (forall s, skillLevel P = Some s -> truthy s = true ->
        includes (buildPersonalizedPrompt P) s = true)
  /\ (forall s, playstyle P = Some s -> truthy s = true ->
        includes (buildPersonalizedPrompt P) s = true).
Proof.
  split; [|split].
  - intros r Hr. apply includes_sentence with (roleSentence (preferredRoles P)).
    + unfold promptParts. apply elem_of_app. left.
      apply pushIf_keeps. destruct (playstyle P); [apply pushIf_keeps|];
        (destruct (preferredRoles P); [by apply elem_of_nil in Hr|]);
        apply pushIf_pushes.
    + unfold roleSentence. apply includes_app_right, includes_app_left.
      by apply includes_join.
  - intros s Hs Ht. apply includes_sentence with (skillSentence s).
    + unfold promptParts. rewrite Hs, Ht. apply elem_of_app. left.
      apply pushIf_keeps. destruct (playstyle P); [apply pushIf_keeps|];
        do 2 apply pushIf_keeps; apply pushIf_pushes.
    + unfold skillSentence. apply includes_app_right, includes_app_left.
      apply includes_refl.
  - intros s Hs Ht. apply includes_sentence with (playstyleSentence s).
    + unfold promptParts. rewrite Hs, Ht. apply elem_of_app. left.
      apply pushIf_keeps, pushIf_pushes.
    + unfold playstyleSentence. apply includes_app_right, includes_app_left.
      apply includes_refl.
Qed.

End PromptFacts.

(** ** The web search client *)

Section SearchFacts.
Import JS JSArrays Search.

Lemma slice0_sublist {A : Type} (last : Z) (l : list A) :
  slice0 last l `sublist_of` l.
Proof. unfold slice0. destruct (last <? 0)%Z; apply sublist_take. Qed.

Lemma slice0_length {A : Type} (last : Z) (l : list A) :
  (0 <= last)%Z -> length (slice0 last l) <= Z.to_nat last.
Proof.
  intros Hl. unfold slice0.
  destruct (last <? 0)%Z eqn:Hneg; [lia|].
  rewrite length_take. lia.
Qed.

(** The results of a search come, in order, from the organic results that
    have a link. *)
Lemma searchWeb_inr fetch query apiKey limit rs :
  searchWeb fetch query apiKey limit = inr rs ->
  rs `sublist_of`
     filter (fun r => truthy (url r))
       (toCitation <$> organicOf fetch query apiKey)
  /\ ((0 <= nullish limit 5)%Z -> length rs <= Z.to_nat (nullish limit 5%Z)).
Proof.
  unfold searchWeb, organicOf.
  destruct (Llm.ok _); cbn [negb]; [|done]. intros [= <-].
  destruct (organic_results _) as [os|]; cbn [nullish];
    (split; [apply slice0_sublist | apply slice0_length]).
Qed.

End SearchFacts.

Section SearchResults.
Import JS JSArrays Search.

(** X21.  A search returns at most [limit] results, five when no limit is
    given. *)
Theorem searchWeb_bounded fetch (query apiKey : string) (limit : option Z)
    (rs : list WebCitation) :
  searchWeb fetch query apiKey limit = inr rs ->
  (0 <= nullish limit 5)%Z ->
  length rs <= Z.to_nat (nullish limit 5%Z).
Proof. intros [_ H]%searchWeb_inr. exact H. Qed.

(** X22.  Every result of a search has a non-empty URL and comes from an
    organic result with that link; its title is the title of that result,
    or the URL when the result has no title, so the fallback ["Untitled"]
    is never used for a result that is returned; the results keep the order
    of the response. *)
Theorem searchWeb_linked fetch (query apiKey : string) (limit : option Z)
    (rs : list WebCitation) :
  searchWeb fetch query apiKey limit = inr rs ->
  rs `sublist_of` (toCitation <$> organicOf fetch query apiKey)
  /\ Forall (fun r =>
               url r <> ""
               /\ exists o, o ∈ organicOf fetch query apiKey
                    /\ link o = Some (url r)
                    /\ title r = nullish (or_title o) (url r)
                    /\ snippet r = Some (nullish (or_snippet o) ""))
            rs.
Proof.
  intros [Hsub _]%searchWeb_inr. split.
  - etrans; [exact Hsub | apply sublist_filter].
  - apply Forall_forall. intros r Hr.
    eapply elem_of_sublist in Hr; [|exact Hsub].
    apply list_elem_of_filter in Hr as [Hurl Hr].
    apply list_elem_of_fmap in Hr as (o & -> & Ho).
    apply Is_true_true, truthy_spec in Hurl. split; [done|].
    exists o. split; [done|]. unfold toCitation in *. cbn [url title snippet] in *.
    destruct (link o) as [l|]; [done|]. by cbn in Hurl.
Qed.

End SearchResults.

(** ** The chat route *)

Section ChatRoute.
Import JS JSArrays Llm Chat.

Lemma chat_inr_truthy self net msgs opts r :
  chat self net msgs opts = inr r -> truthy (resp_content r) = true.
Proof.
  unfold chat, chatOpenAI, chatAnthropic.
  destruct (provider (config self));
    (destruct (ok _); cbn [negb]; [|done]);
    (destruct (truthy _) eqn:Ht; cbn [negb]; [|done]);
    by intros [= <-].
Qed.

Lemma sanitizeHistory_roles (history : list HistoryEntry) :
  Forall (fun msg => role msg <> system) (sanitizeHistory history).
Proof.
  unfold sanitizeHistory. apply Forall_fmap, Forall_forall. intros h _.
  cbn. by case_bool_decide.
Qed.

Lemma filter_none `(P : A -> Prop) `{!forall x, Decision (P x)} (l : list A) :
  Forall (fun x => ~ P x) l -> filter P l = [].
Proof.
  induction 1 as [|x l Hx _ IH]; [done|]. by rewrite filter_cons_False.
Qed.

Lemma filter_all `(P : A -> Prop) `{!forall x, Decision (P x)} (l : list A) :
  Forall P l -> filter P l = l.
Proof.
  induction 1 as [|x l Hx _ IH]; [done|]. by rewrite filter_cons_True, IH.
Qed.

Lemma systemContent_truthy (profile : option UserProfile) :
  truthy (systemContent profile) = true.
Proof.
  unfold systemContent.
  destruct profile as [p|]; [destruct (Prompt.hasProfileData p)|]; try done.
  unfold Prompt.buildPersonalizedPrompt.
  destruct (promptParts_shape p) as [mid ->].
  rewrite join_cons by by destruct mid. done.
Qed.

(** The messages of the foreground call hold exactly one system message,
    the prompt built by the route, so that the Anthropic payload has this
    prompt as its [system] field and the sanitized history followed by the
    question as its [messages]. *)
Lemma chatMessages_system {rt : Runtime}
    (query : string) (sources : list Search.WebCitation)
    (profile : option UserProfile) (history : list HistoryEntry)
    (self : LLMService) (t : Q) (m : nat) :
  let msgs := chatMessages query sources profile history in
  let payload := body (anthropicRequest self msgs t m) in
  systemOf msgs = [fst (buildPrompt query sources profile)]
  /\ an_system payload = Some (systemContent profile)
  /\ an_messages payload
     = sanitizeHistory history ++ [snd (buildPrompt query sources profile)].
Proof.
  intros msgs payload.
  assert (Hsys : systemOf msgs = [fst (buildPrompt query sources profile)]).
  { unfold msgs, chatMessages, systemOf, buildPrompt. cbn [fst].
    rewrite filter_app, filter_cons_True by done. rewrite filter_app.
    rewrite (filter_none _ (sanitizeHistory history)).
    - by rewrite filter_cons_False.
    - eapply Forall_impl; [apply sanitizeHistory_roles|]. by intros ? ?. }
  assert (Hconv : conversationOf msgs
                  = sanitizeHistory history
                    ++ [snd (buildPrompt query sources profile)]).
  { unfold msgs, chatMessages, conversationOf, buildPrompt. cbn [snd].
    rewrite filter_app, filter_cons_False by naive_solver.
    rewrite filter_app, filter_nil.
    rewrite (filter_all _ (sanitizeHistory history))
      by apply sanitizeHistory_roles.
    by rewrite filter_cons_True. }
  split; [done|]. unfold payload. cbn [anthropicRequest body].
  rewrite anthropicBody_spec. cbn [an_system an_messages].
  rewrite Hsys, Hconv. split; [|done].
  cbn [fmap list_fmap last buildPrompt fst content].
  by rewrite systemContent_truthy.
Qed.

(** A request without system message, on the Anthropic path. *)
Lemma anthropicRequest_no_system self msgs t m :
  Forall (fun msg => role msg <> system) msgs ->
  an_messages (body (anthropicRequest self msgs t m)) = msgs
  /\ an_system (body (anthropicRequest self msgs t m)) = None.
Proof.
  intros Hmsgs. cbn [anthropicRequest body]. rewrite anthropicBody_spec.
  cbn [an_messages an_system]. unfold conversationOf, systemOf.
  rewrite (filter_all _ msgs) by done.
  rewrite (filter_none _ msgs); [done|].
  eapply Forall_impl; [exact Hmsgs|]. by intros ? ?.
Qed.

(** [chat] consults the endpoints at the request built from its input. *)
Lemma chat_reaches self msgs options
    (sentOpenAI : Request OpenAIBody -> Prop)
    (sentAnthropic : Request AnthropicBody -> Prop) :
  (forall t m, sentOpenAI (openAIRequest self msgs t m)) ->
  (forall t m, sentAnthropic (anthropicRequest self msgs t m)) ->
  Wire.reaches (fun network => chat self network msgs options)
    sentOpenAI sentAnthropic.
Proof.
  intros HO HA net1 net2 Hagree Hagree'.
  unfold chat, chatOpenAI, chatAnthropic.
  destruct (provider (config self));
    by rewrite ?(Hagree _ (HO _ _)), ?(Hagree' _ (HA _ _)).
Qed.

(** X23.  The history of a request cannot bring a system message.  Whatever
    roles the entries of the history claim, every request that the handler
    of [POST /api/chat] sends to the provider, for the answer or for the
    extraction in the background, is free of it: on the OpenAI-compatible
    endpoint the only system message of a request is the prompt built by
    the route; on the Anthropic endpoint the [messages] array holds no
    system message and the [system] field, when present, is that prompt. *)
Theorem history_cannot_be_system {rt : Runtime}
    (deps : Deps) (st : Store) (req : ChatRequest) :
  let prompt :=
    {| role := system; content := systemContent (profileRow st) |} in
  Wire.reaches
    (fun network =>
       postChat
         {| llm := llm deps; serpApiKey := serpApiKey deps; net := network;
            fetchSerp := fetchSerp deps; JSON_parse := JSON_parse deps;
            now := now deps |} st req)
    (fun r =>
       Forall (fun msg => role msg = system -> msg = prompt)
         (oa_messages (body r)))
    (fun r =>
       Forall (fun msg => role msg <> system) (an_messages (body r))
       /\ (an_system (body r) = None
           \/ an_system (body r) = Some (content prompt))).
Proof.
  intros prompt net1 net2 Hagree Hagree'. unfold postChat.
  cbn [llm serpApiKey net fetchSerp JSON_parse now].
  destruct (truthy (trim _)); cbn [negb]; [|done].
  destruct (truthy (serpApiKey deps)); cbn [negb]; [|done].
  set (query := nullish (message req) "").
  assert (Hbg : forall row stored,
            extractAndUpdateProfile net1 (JSON_parse deps) (now deps) row
              (llm deps) query stored
            = extractAndUpdateProfile net2 (JSON_parse deps) (now deps) row
                (llm deps) query stored).
  { intros row stored. unfold extractAndUpdateProfile.
    destruct stored as [p|]; [|done].
    assert (Profile.extractPreferences net1 (JSON_parse deps) query (llm deps)
            = Profile.extractPreferences net2 (JSON_parse deps) query
                (llm deps)) as ->; [|done].
    unfold Profile.extractPreferences, Profile.extractPreferences_try.
    assert (Llm.chat (llm deps) net1 (Profile.extractionMessages query)
              Profile.extractionOptions
            = Llm.chat (llm deps) net2 (Profile.extractionMessages query)
                Profile.extractionOptions) as ->; [|done].
    refine (chat_reaches (llm deps) (Profile.extractionMessages query)
              Profile.extractionOptions _ _ _ _ net1 net2 Hagree Hagree').
    - intros t m. cbn. constructor; [done | constructor].
    - intros t m.
      destruct (anthropicRequest_no_system (llm deps)
                  (Profile.extractionMessages query) t m) as [-> ->].
      + constructor; [done | constructor].
      + split; [|by left]. constructor; [done | constructor]. }
  rewrite Hbg.
  destruct (Search.searchWeb _ _ _ _) as [?|sources]; [done|].
  destruct (0 <? length sources)%nat; cbn [negb]; [|done].
  match goal with
  | |- context [chat _ net1 ?msgs ?opts] =>
      assert (chat (llm deps) net1 msgs opts = chat (llm deps) net2 msgs opts)
        as ->; [|done]
  end.
  refine (chat_reaches (llm deps) _ _ _ _ _ _ net1 net2 Hagree Hagree').
  - intros t m. cbn [openAIRequest body oa_messages].
    unfold chatMessages, buildPrompt. apply Forall_app. split.
    + constructor; [done | constructor].
    + apply Forall_app. split.
      * eapply Forall_impl; [apply sanitizeHistory_roles|]. by intros ? ? ?.
      * constructor; [done | constructor].
  - intros t m.
    destruct (chatMessages_system query sources (profileRow st) (history req)
                (llm deps) t m) as (_ & Hsys & Hconv).
    rewrite Hsys, Hconv. split; [|by right].
    apply Forall_app. split; [apply sanitizeHistory_roles|].
    constructor; [done | constructor].
Qed.

End ChatRoute.

Section ChatHandler.
Import JS JSArrays Llm Chat.

(** X24.  A request that is refused up front leaves the store alone: a
    message that is missing, empty or blank (its [trim] is empty) is
    answered with 400 and [message is required]; otherwise, without a
    search key, the answer is 500 and [SERPAPI_API_KEY is missing]; in both
    cases neither the profile nor the notes change. *)
Theorem postChat_refused {rt : Runtime}
    (deps : Deps) (st : Store) (req : ChatRequest) :
  let blank := trim (nullish (message req) "") = "" in
  (blank -> postChat deps st req = (Failure 400 "message is required", st))
  /\ (~ blank -> serpApiKey deps = "" ->
      postChat deps st req = (Failure 500 "SERPAPI_API_KEY is missing", st)).
Proof.
  intros blank. unfold blank, postChat. split.
  - by intros ->.
  - intros Hmsg ->. apply truthy_spec in Hmsg. by rewrite Hmsg.
Qed.

Lemma postChat_refused_witness :
  postChat
    {| llm := Samples.service anthropic; serpApiKey := "serp-key";
       net := Samples.network (Some "gg");
       fetchSerp := fun _ =>
         {| ok := true; status := 200; text := "";
            json := {| Search.organic_results := None |} |};
       JSON_parse := Samples.parse; now := "t1" |}
    {| profileRow := Some (Samples.profile [] [] None); notes := [] |}
    {| message := Some "   "; history := [] |}
  = (Failure 400 "message is required",
     {| profileRow := Some (Samples.profile [] [] None); notes := [] |}).
Proof.
  exact (proj1 (postChat_refused (rt := asciiRuntime)
                  {| llm := Samples.service anthropic;
                     serpApiKey := "serp-key";
                     net := Samples.network (Some "gg");
                     fetchSerp := fun _ =>
                       {| ok := true; status := 200; text := "";
                          json := {| Search.organic_results := None |} |};
                     JSON_parse := Samples.parse; now := "t1" |}
                  {| profileRow := Some (Samples.profile [] [] None);
                     notes := [] |}
                  {| message := Some "   "; history := [] |})
           eq_refl).
Defined.

(** X25.  The replies of the route.  An error reply is one of three fixed
    texts, so that no detail of a failure of the search or of the provider
    reaches the client; an answer is never empty and comes with at most five
    citations, each with a URL. *)
Theorem postChat_replies {rt : Runtime}
    (deps : Deps) (st : Store) (req : ChatRequest) :
  match fst (postChat deps st req) with
  | Failure code error =>
      (code, error) ∈ [(400, "message is required");
                       (500, "SERPAPI_API_KEY is missing");
                       (500, "Failed to complete request")]
  | Answer answer citations =>
      answer <> ""
      /\ length citations <= 5
      /\ Forall (fun c => snd c <> "") citations
  end.
Proof.
  unfold postChat.
  destruct (truthy (trim _)); cbn [negb fst]; [|set_solver].
  destruct (truthy (serpApiKey deps)); cbn [negb fst]; [|set_solver].
  destruct (Search.searchWeb _ _ _ _) as [?|rs] eqn:Hs; cbn [fst];
    [set_solver|].
  destruct (0 <? length rs)%nat; cbn [negb fst].
  2:{ repeat split; [done | cbn; lia | constructor]. }
  destruct (chat _ _ _ _) as [?|r] eqn:Hc; cbn [fst]; [set_solver|].
  apply chat_inr_truthy, truthy_spec in Hc.
  apply searchWeb_inr in Hs as [Hsub Hlen].
  repeat split; [done | |].
  - rewrite length_fmap. by apply Hlen.
  - apply Forall_fmap, Forall_forall. intros c Hin.
    eapply elem_of_sublist in Hin; [|exact Hsub].
    apply list_elem_of_filter in Hin as [Hurl _].
    by apply Is_true_true, truthy_spec in Hurl.
Qed.

(** X26.  The notes only grow, by one note per citation of the answer: the
    notes stored before the request are a prefix of the notes stored after
    it, and when the reply is an answer the notes added carry the titles
    and URLs of its citations, in order. *)
Theorem postChat_notes {rt : Runtime}
    (deps : Deps) (st : Store) (req : ChatRequest) :
  let reply := fst (postChat deps st req) in
  let st' := snd (postChat deps st req) in
  notes st `prefix_of` notes st'
  /\ match reply with
     | Answer _ citations =>
         (fun n => (source_title n, source_url n))
           <$> drop (length (notes st)) (notes st')
         = citations
     | Failure _ _ => True
     end.
Proof.
  unfold postChat.
  destruct (truthy (trim _)); cbn [negb fst snd]; [|done].
  destruct (truthy (serpApiKey deps)); cbn [negb fst snd]; [|done].
  destruct (Search.searchWeb _ _ _ _) as [?|rs]; cbn [fst snd notes]; [done|].
  destruct (0 <? length rs)%nat; cbn [negb fst snd notes].
  2:{ split; [done|]. by rewrite drop_all. }
  unfold persistNotes.
  destruct (chat _ _ _ _) as [?|r]; cbn [fst snd notes];
    (split; [by apply prefix_app_r|]); [done|].
  rewrite drop_app_length, <- list_fmap_compose. done.
Qed.

End ChatHandler.

(** ** The background task *)

Section BackgroundTask.
Import JS Memory Chat.



(** X28.  The background task never loses what the store holds: when the
    extraction fails, or yields nothing, the profile row is left as it is;
    in every case the heroes, roles and goals of the row stay, in order, at
    the head of the lists stored afterwards. *)
Theorem extractAndUpdateProfile_keeps {rt : Runtime}
    (net : Llm.Network) (JSON_parse : string -> option Profile.json)
    (now : string) (p : UserProfile) (llm : Llm.LLMService)
    (message : string) :
  let E := Profile.extractPreferences net JSON_parse message llm in
  let after :=
    extractAndUpdateProfile net JSON_parse now (Some p) llm message (Some p) in
  (Profile.hasPreferences E = false -> after = Some p)
  /\ exists p', after = Some p'
       /\ preferredHeroes p `prefix_of` preferredHeroes p'
       /\ preferredRoles p `prefix_of` preferredRoles p'
       /\ learningGoals p `prefix_of` learningGoals p'.
Proof.
  intros E after. unfold after, extractAndUpdateProfile. fold E. split.
  - by intros ->.
  - destruct (Profile.hasPreferences E); cbn [negb]; [|by exists p].
    destruct (0 <? length _)%nat; [|by exists p].
    eexists. split; [reflexivity|].
    rewrite updateProfile_heroes, updateProfile_roles, updateProfile_goals.
    repeat split.
    + destruct (upd_preferredHeroes _) as [l|] eqn:Hl; cbn [nullish]; [|done].
      apply evolveProfile_heroes in Hl as (hs & _ & ->). by apply prefix_app_r.
    + destruct (upd_preferredRoles _) as [l|] eqn:Hl; cbn [nullish]; [|done].
      apply evolveProfile_roles in Hl as (hs & _ & ->). by apply prefix_app_r.
    + destruct (upd_learningGoals _) as [l|] eqn:Hl; cbn [nullish]; [|done].
      apply evolveProfile_goals in Hl as (hs & _ & ->). by apply prefix_app_r.
Qed.

End BackgroundTask.

(** ** Migrations *)

Section MigrationFacts.
Import JS Db.

Context {Schema : Type}.
Implicit Types (db : Database Schema) (entries : list (string * Migration Schema)).

(** The loop only appends names to the table. *)
Lemma runPending_grows applied entries db db' failed :
  runPending applied entries db = (db', failed) ->
  migrationNames db `prefix_of` migrationNames db'.
Proof.
  revert db. induction entries as [|[name mig] entries IH]; intros db;
    cbn [runPending].
  - by intros [= <- _].
  - destruct (has applied name); [apply IH|].
    destruct (up mig (schema db)) as [s|]; [|by intros [= <- _]].
    case_bool_decide; [by intros [= <- _]|].
    intros Hrun%IH. cbn [migrationNames] in Hrun.
    etrans; [|exact Hrun]. by apply prefix_app_r.
Qed.

(** After a run without failure every entry is recorded. *)
Lemma runPending_records applied entries db db' :
  runPending applied entries db = (db', None) ->
  (forall name, has applied name -> name ∈ migrationNames db) ->
  forall name, name ∈ entries.*1 -> name ∈ migrationNames db'.
Proof.
  revert db. induction entries as [|[name mig] entries IH]; intros db;
    cbn [runPending].
  - intros _ _ name Hn. by apply elem_of_nil in Hn.
  - intros Hrun Happ n. cbn [fmap list_fmap fst].
    intros [->|Hn]%elem_of_cons.
    + destruct (has applied name) eqn:Hh.
      * apply runPending_grows in Hrun as [k ->].
        apply elem_of_app. left. apply Happ. by rewrite Hh.
      * destruct (up mig (schema db)) as [s|]; [|done].
        case_bool_decide; [done|].
        apply runPending_grows in Hrun as [k ->]. cbn [migrationNames].
        rewrite !elem_of_app. left. right. constructor.
    + destruct (has applied name); [by apply (IH db)|].
      destruct (up mig (schema db)) as [s|]; [|done].
      case_bool_decide; [done|].
      apply (IH _ Hrun); [|done]. intros n' Hn'. cbn [migrationNames].
      apply elem_of_app. left. by apply Happ.
Qed.

(** Entries that are all recorded are all skipped. *)
Lemma runPending_skips applied entries db :
  (forall name, name ∈ entries.*1 -> has applied name) ->
  runPending applied entries db = (db, None).
Proof.
  induction entries as [|[name mig] entries IH]; [done|].
  intros H. cbn [runPending].
  assert (Hn : has applied name) by (apply H; constructor).
  apply Is_true_true in Hn. rewrite Hn. apply IH.
  intros n Hin. apply H. by constructor.
Qed.

(** X29.  Migrations run once: after a run of [runMigrations] that did not
    fail, a second run applies no migration and leaves the database as it
    is. *)
Theorem runMigrations_idempotent entries db db' :
  runMigrations entries db = (db', None) ->
  runMigrations entries db' = (db', None).
Proof.
  unfold runMigrations. intros Hrun. apply runPending_skips.
  intros name Hn. apply has_Set_of.
  apply (runPending_records _ _ _ _ Hrun); [|done].
  intros n. apply has_Set_of.
Qed.

(** X30.  Whether or not a migration fails, the names recorded before the
    run stay recorded, in order; a migration whose name is recorded is never
    run again, so a database whose table holds every name is left as it
    is. *)
Theorem runMigrations_keeps entries db :
  migrationNames db `prefix_of` migrationNames (fst (runMigrations entries db))
  /\ ((forall name, name ∈ entries.*1 -> name ∈ migrationNames db) ->
      runMigrations entries db = (db, None)).
Proof.
  split.
  - destruct (runMigrations entries db) as [db' failed] eqn:Hrun.
    by apply runPending_grows in Hrun.
  - intros H. apply runPending_skips. intros name Hn.
    apply has_Set_of. by apply H.
Qed.

End MigrationFacts.

(** ** Examples of the properties above *)

Section MoreWitnesses.
Import JS JSArrays.

Lemma prompt_truncation_witness :
  Prompt.buildPersonalizedPrompt (Examples.veteran 1 None)
  = Prompt.buildPersonalizedPrompt Examples.veteran'.
Proof.
  exact (prompt_truncation (Examples.veteran 1 None) Examples.veteran'
           eq_refl eq_refl eq_refl eq_refl eq_refl).
Defined.

Lemma prompt_names_profile_witness :
  includes (Prompt.buildPersonalizedPrompt (Examples.veteran 1 None)) "mid"
  = true.
Proof.
  apply (proj1 (prompt_names_profile (Examples.veteran 1 None))).
  apply list_elem_of_In. cbn. auto.
Defined.

Lemma searchWeb_bounded_witness :
  exists rs,
    Search.searchWeb Examples.serpReply "laning" "serp-key" (Some 1%Z) = inr rs
    /\ length rs <= 1.
Proof.
  eexists. split; [reflexivity|].
  apply (searchWeb_bounded Examples.serpReply "laning" "serp-key" (Some 1%Z));
    [reflexivity | done].
Defined.

Lemma searchWeb_linked_witness :
  exists rs,
    Search.searchWeb Examples.serpReply "laning" "serp-key" None = inr rs
    /\ Search.title <$> rs = ["Laning guide"; "https://b.example/meta"]
    /\ Forall (fun r => Search.url r <> "") rs.
Proof.
  eexists. split; [reflexivity|]. split; [reflexivity|].
  destruct (searchWeb_linked Examples.serpReply "laning" "serp-key" None _
              eq_refl) as [_ H].
  eapply Forall_impl; [exact H|]. by intros r [? _].
Defined.

Lemma extractAndUpdateProfile_keeps_witness :
  Chat.extractAndUpdateProfile (Samples.network (Some "no json here"))
    Samples.parse "t1" (Some (Samples.profile ["Axe"] [] None))
    (Samples.service Llm.openai) "gg"
    (Some (Samples.profile ["Axe"] [] None))
  = Some (Samples.profile ["Axe"] [] None).
Proof.
  apply (proj1 (extractAndUpdateProfile_keeps
                  (Samples.network (Some "no json here")) Samples.parse "t1"
                  (Samples.profile ["Axe"] [] None)
                  (Samples.service Llm.openai) "gg")).
  reflexivity.
Defined.

Lemma runMigrations_idempotent_witness :
  Db.runMigrations Examples.migrations Examples.migratedDb
  = (Examples.migratedDb, None).
Proof.
  apply (runMigrations_idempotent Examples.migrations Examples.freshDb).
  reflexivity.
Defined.

Lemma runMigrations_keeps_witness :
  Db.runMigrations Examples.migrations Examples.migratedDb
  = (Examples.migratedDb, None).
Proof.
  apply (proj2 (runMigrations_keeps Examples.migrations Examples.migratedDb)).
  intros name Hn. exact Hn.
Defined.

End MoreWitnesses.
